(** * Hindu scripture advisor: the text classifier, the response cleaner and
    the [/chat] handler, embedded from [utils.py] and [fastapi_app.py].

    A Python [str] is modelled by [string], the sequence of the bytes of its
    UTF-8 encoding; every keyword, punctuation mark and pattern of the source
    is ASCII.  The whitespace class ([str.strip], [str.split], the pattern
    [\s]) and [str.lower] are modelled on the ASCII range: the code points
    beyond it that Python also counts as whitespace or as cased letters are
    left as they are; what depends on the whitespace class is stated for the
    texts that hold none of these code points ([no_unicode_space]).  Calls to
    [logging] have no effect on any result and are left out. *)

From Stdlib Require Import Ascii String Bool List Arith Lia.
From stdpp Require Import gmap strings.

(** ** Characters *)

Definition code (c : ascii) : nat := nat_of_ascii c.

(** [str.isspace] on ASCII: TAB, LF, VT, FF, CR, the separators FS, GS, RS,
    US, and the space. *)
Definition isspace (c : ascii) : bool :=
  ((9 <=? code c) && (code c <=? 13)) || ((28 <=? code c) && (code c <=? 32)).

Definition isupper (c : ascii) : bool := (65 <=? code c) && (code c <=? 90).

Definition islower (c : ascii) : bool := (97 <=? code c) && (code c <=? 122).

Definition lower_char (c : ascii) : ascii :=
  if isupper c then ascii_of_nat (code c + 32) else c.

Definition upper_char (c : ascii) : ascii :=
  if islower c then ascii_of_nat (code c - 32) else c.

Definition star : ascii := "*"%char.
Definition newline : ascii := ascii_of_nat 10.
Definition space : ascii := " "%char.
Definition tab : ascii := ascii_of_nat 9.
Definition dot : ascii := "."%char.

Definition is_star (c : ascii) : bool := Ascii.eqb c star.
Definition is_newline (c : ascii) : bool := Ascii.eqb c newline.
(** The character class [[ \t]]. *)
Definition is_blank (c : ascii) : bool := Ascii.eqb c space || Ascii.eqb c tab.

(** ** Strings *)

Definition is_empty (s : string) : bool :=
  match s with EmptyString => true | String _ _ => false end.

(** [str.lower]. *)
Fixpoint lower (s : string) : string :=
  match s with
  | EmptyString => EmptyString
  | String c s' => String (lower_char c) (lower s')
  end.

(** [str.capitalize]: the first character upper-cased, the rest lower-cased. *)
Definition capitalize (s : string) : string :=
  match s with
  | EmptyString => EmptyString
  | String c s' => String (upper_char c) (lower s')
  end.

(** [str.lstrip], [str.rstrip] and [str.strip] with no argument. *)
Fixpoint lstrip (s : string) : string :=
  match s with
  | EmptyString => EmptyString
  | String c s' => if isspace c then lstrip s' else s
  end.

Fixpoint rstrip (s : string) : string :=
  match s with
  | EmptyString => EmptyString
  | String c s' =>
      let r := rstrip s' in
      if isspace c && is_empty r then EmptyString else String c r
  end.

Definition strip (s : string) : string := rstrip (lstrip s).

(** [str.split] with no argument: the maximal runs of non-whitespace
    characters, in order.  [w] is the word read so far. *)
Fixpoint split_from (w s : string) : list string :=
  match s with
  | EmptyString => if is_empty w then [] else [w]
  | String c s' =>
      if isspace c
      then (if is_empty w then split_from EmptyString s'
            else w :: split_from EmptyString s')
      else split_from (w +:+ String c EmptyString) s'
  end.

Definition split (s : string) : list string := split_from EmptyString s.

(** [sep.join(words)]. *)
Fixpoint join (sep : string) (ws : list string) : string :=
  match ws with
  | [] => EmptyString
  | [w] => w
  | w :: rest => w +:+ sep +:+ join sep rest
  end.

(** [s.startswith(k)]. *)
Fixpoint startswith (k s : string) : bool :=
  match k, s with
  | EmptyString, _ => true
  | String _ _, EmptyString => false
  | String a k', String b s' => Ascii.eqb a b && startswith k' s'
  end.

(** The operator [k in q] on strings: [k] occurs in [q] as a substring. *)
Fixpoint contains (k q : string) : bool :=
  startswith k q ||
  match q with
  | EmptyString => false
  | String _ q' => contains k q'
  end.

(** The operator [w in l] on a list of strings. *)
Definition mem (w : string) (l : list string) : bool :=
  existsb (String.eqb w) l.

(** [any(k in q for k in kws)]. *)
Definition any_in (kws : list string) (q : string) : bool :=
  existsb (fun k => contains k q) kws.

(** ** utils.py: keyword tables *)

Definition GREETINGS : list string :=
  ["hi"; "hello"; "hey"; "namaste"; "yo"; "pranam"; "jai shree ram";
   "om namah shivaya"; "radhe radhe"; "good morning"; "good afternoon";
   "good evening"].

Definition TASK_KEYWORDS : list string :=
  ["dharma"; "karma"; "moksha"; "atman"; "brahman"; "yoga"; "meditation";
   "bhakti"; "jnana"; "seva";
   "stress"; "anxiety"; "fear"; "sadness"; "anger"; "grief"; "purpose";
   "meaning of life"; "suffering";
   "bhagavad gita"; "veda"; "upanishad"; "purana"; "ramayana"; "mahabharata";
   "scripture"; "text"; "shastra";
   "guidance"; "solution"; "advice"; "teachings"; "principles"; "philosophy";
   "answer"; "explain"; "meaning";
   "table"; "format"; "chart"; "show"; "give"; "list"; "bullet"; "points";
   "itemize"; "enumerate"].

Definition FORMATTING_KEYWORDS : list string :=
  ["table"; "tabular"; "chart"; "format"; "list"; "bullet"; "points";
   "itemize"; "enumerate"; "in a table"; "as a table"].

(** [string.punctuation]; the double quote is character 34. *)
Definition punctuation : string :=
  "!" +:+ String (ascii_of_nat 34) "#$%&'()*+,-./:;<=>?@[\]^_`{|}~".

Fixpoint has_char (c : ascii) (s : string) : bool :=
  match s with
  | EmptyString => false
  | String d s' => Ascii.eqb c d || has_char c s'
  end.

(** [s.translate(str.maketrans('', '', deleted))]: the characters of
    [deleted] are removed. *)
Fixpoint translate_delete (deleted s : string) : string :=
  match s with
  | EmptyString => EmptyString
  | String c s' =>
      if has_char c deleted then translate_delete deleted s'
      else String c (translate_delete deleted s')
  end.

Definition _clean_query (query : string) : string :=
  lower (strip (translate_delete punctuation query)).

(** ** utils.py: the boolean probes *)

Definition is_greeting (query : string) : bool :=
  if is_empty query then false
  else
    let cleaned_query := _clean_query query in
    let words := split cleaned_query in
    let is_pure_greeting :=
      mem cleaned_query GREETINGS && (length words <=? 3) in
    let contains_task_keywords := any_in TASK_KEYWORDS cleaned_query in
    is_pure_greeting && negb contains_task_keywords.

Definition filler_words : list string :=
  ["in"; "a"; "as"; "give"; "me"; "show"; "it"; "that"; "please"; "can";
   "you"; "provide"; "the"; "an"; "this"; "my"; "your"; "for"; "me"].

(** The comprehension [[w for w in words if w not in FORMATTING_KEYWORDS and
    w not in filler_words]]. *)
Definition substantive (words : list string) : list string :=
  List.filter (fun w => negb (mem w FORMATTING_KEYWORDS)
                        && negb (mem w filler_words)) words.

Definition is_formatting_request (query : string) : bool :=
  if is_empty query then false
  else
    let cleaned_query := _clean_query query in
    let words := split cleaned_query in
    if negb (any_in FORMATTING_KEYWORDS cleaned_query) then false
    else
      let non_formatting_or_filler_words := substantive words in
      length non_formatting_or_filler_words <=? 1.

Definition contains_table_request (query : string) : bool :=
  let q := lower query in
  any_in FORMATTING_KEYWORDS q.

(** ** utils.py: the three extractors *)

(** A dict literal iterates in the order it is written: a category table is
    the list of its items. *)
Definition table : Type := list (string * list string).

Definition concepts : table :=
  [("dharma", ["dharma"; "duty"; "righteousness"]);
   ("karma", ["karma"; "action"; "consequence"; "karma yoga"]);
   ("moksha", ["moksha"; "liberation"; "salvation"; "enlightenment"]);
   ("atman", ["atman"; "soul"; "self"]);
   ("brahman", ["brahman"; "ultimate reality"; "absolute truth"]);
   ("yoga", ["yoga"; "meditation"; "union"; "asanas"]);
   ("bhakti", ["bhakti"; "devotion"; "bhakti yoga"]);
   ("jnana", ["jnana"; "knowledge"; "wisdom"; "jnana yoga"]);
   ("seva", ["seva"; "selfless service"]);
   ("reincarnation", ["reincarnation"; "rebirth"; "samsara"]);
   ("maya", ["maya"; "illusion"; "worldly illusion"]);
   ("nirvana", ["nirvana"; "spiritual liberation"]);
   ("guna", ["guna"; "qualities"; "modes of nature"]);
   ("sanskara", ["sanskara"; "impressions"; "mental imprints"]);
   ("sattva", ["sattva"; "purity"; "goodness"]);
   ("rajas", ["rajas"; "passion"; "activity"]);
   ("tamas", ["tamas"; "ignorance"; "darkness"])].

Definition problems : table :=
  [("stress", ["stress"; "tension"; "anxiety"; "worry"; "overwhelmed";
               "pressure"]);
   ("anger", ["anger"; "frustration"; "irritation"; "rage"; "resentment"]);
   ("grief", ["grief"; "loss"; "sadness"; "sorrow"; "bereavement";
              "heartbreak"]);
   ("purpose", ["purpose"; "meaning of life"; "direction"; "aim"; "goal";
                "why am i here"; "lack of direction"]);
   ("fear", ["fear"; "insecurity"; "doubt"; "apprehension"; "courage";
             "hesitation"]);
   ("relationships", ["relationship"; "family"; "friends"; "love";
                      "conflict"; "breakup"; "marriage"; "loneliness";
                      "social issues"]);
   ("suffering", ["suffering"; "pain"; "hardship"; "adversity"; "misery";
                  "struggle"]);
   ("decision making", ["decision"; "choice"; "dilemma"; "confused";
                        "uncertainty"; "indecision"]);
   ("materialism", ["materialism"; "attachment"; "desire"; "greed"]);
   ("ego", ["ego"; "pride"; "self-importance"; "arrogance"]);
   ("depression", ["depression"; "despair"; "hopelessness"; "melancholy"])].

Definition sources : table :=
  [("bhagavad gita", ["bhagavad gita"; "gita"; "bhagwad geeta"]);
   ("veda", ["veda"; "vedas"; "rigveda"; "yajurveda"; "samaveda";
             "atharvaveda"]);
   ("upanishad", ["upanishad"; "upanishads"]);
   ("purana", ["purana"; "puranas"; "vishnu purana"; "bhagavata purana";
               "garuda purana"; "skanda purana"]);
   ("ramayana", ["ramayana"; "ramayan"; "valmiki ramayana"]);
   ("mahabharata", ["mahabharata"; "mahabharat"]);
   ("yoga sutras", ["yoga sutras"; "patanjali yoga sutras"; "patanjali"]);
   ("dharma shastras", ["dharma shastras"; "manu smriti"]);
   ("hatha yoga pradipika", ["hatha yoga pradipika"]);
   ("shiva sutras", ["shiva sutras"]);
   ("brahma sutras", ["brahma sutras"]);
   ("vedanta", ["vedanta"])].

(** The loop [for cat, kws in t.items(): if any(k in q for k in kws): return
    cat]: the first category, in the table's order, one of whose keywords
    occurs in [q]; [None] when the loop falls through. *)
Fixpoint first_category (t : table) (q : string) : option string :=
  match t with
  | [] => None
  | (cat, kws) :: rest =>
      if any_in kws q then Some cat else first_category rest q
  end.

Definition extract_spiritual_concept (query : string) : string :=
  let q := lower query in
  match first_category concepts q with
  | Some concept => concept
  | None => "general"
  end.

Definition extract_life_problem (query : string) : string :=
  let q := lower query in
  match first_category problems q with
  | Some problem => problem
  | None => "guidance"
  end.

(** [" ".join([w.capitalize() for w in source.split()])]. *)
Definition format_source (source : string) : string :=
  join " " (map capitalize (split source)).

Definition extract_scripture_source (query : string) : string :=
  let q := lower query in
  match first_category sources q with
  | Some source => format_source source
  | None => "Hindu scriptures"
  end.

(** ** utils.py: the response cleaner *)

Fixpoint drop (n : nat) (s : string) : string :=
  match n, s with
  | S k, String _ s' => drop k s'
  | _, _ => s
  end.

Fixpoint take (n : nat) (s : string) : string :=
  match n, s with
  | S k, String c s' => String c (take k s')
  | _, _ => EmptyString
  end.

(** Length of the longest prefix of [s] whose characters all satisfy [p]:
    what a greedy [[class]*] consumes. *)
Fixpoint span_len (p : ascii -> bool) (s : string) : nat :=
  match s with
  | EmptyString => 0
  | String c s' => if p c then S (span_len p s') else 0
  end.

(** A pattern is given by its matcher: [m bol s = Some (n, r)] when the
    pattern matches at the start of [s], the match is the first [n]
    characters of [s] ([n >= 1] for every pattern of the source: none matches
    the empty string) and its replacement is [r].  [bol] tells whether [s]
    starts a line, which is where [^] matches under [re.MULTILINE]: at the
    start of the text and just after a newline. *)
Definition matcher : Type := bool -> string -> option (nat * string).

(** [re.sub] and [str.replace]: the text is scanned from the left; at a
    position where the pattern matches, the replacement is written and the
    scan resumes after the match; elsewhere the character is copied.
    [skip] counts the characters of the current match still to be passed. *)
Fixpoint sub_from (m : matcher) (skip : nat) (bol : bool) (s : string)
  : string :=
  match s with
  | EmptyString => EmptyString
  | String c s' =>
      match skip with
      | S k => sub_from m k (is_newline c) s'
      | O =>
          match m bol s with
          | Some (n, r) => r +:+ sub_from m (pred n) (is_newline c) s'
          | None => String c (sub_from m 0 (is_newline c) s')
          end
      end
  end.

Definition re_sub (m : matcher) (text : string) : string :=
  sub_from m 0 true text.

(** [str.replace(old, new)] for a literal [old]. For an empty [old] Python
    writes [new] before every character and at the end. *)
Definition m_literal (old new : string) : matcher :=
  fun _ s => if startswith old s then Some (String.length old, new) else None.

Fixpoint intersperse (new s : string) : string :=
  match s with
  | EmptyString => new
  | String c s' => new +:+ String c (intersperse new s')
  end.

Definition replace (old new s : string) : string :=
  if is_empty old then intersperse new s else re_sub (m_literal old new) s.

(** The bullet glyph U+2022 (bytes E2 80 A2) followed by a space. *)
Definition bullet : string :=
  String (ascii_of_nat 226) (String (ascii_of_nat 128)
    (String (ascii_of_nat 162) " ")).

(** [^\*\*\*([^*])] replaced by the bullet and group 1. *)
Definition m_bullet : matcher :=
  fun bol s =>
    match s with
    | String a (String b (String c (String d _))) =>
        if bol && is_star a && is_star b && is_star c && negb (is_star d)
        then Some (4, bullet +:+ String d EmptyString)
        else None
    | _ => None
    end.

(** Number of newlines in the longest whitespace prefix of [s]. *)
Fixpoint ws_newlines (s : string) : nat :=
  match s with
  | EmptyString => 0
  | String c s' =>
      if isspace c
      then (if is_newline c then S (ws_newlines s') else ws_newlines s')
      else 0
  end.

(** Length of the shortest prefix of [s] that holds every newline of the
    longest whitespace prefix of [s]. *)
Fixpoint ws_last_newline (s : string) : nat :=
  match s with
  | EmptyString => 0
  | String c s' =>
      if isspace c
      then (let k := ws_last_newline s' in
            if is_newline c || (1 <=? k) then S k else 0)
      else 0
  end.

(** [\n\s*\n\s*\n+] replaced by two newlines.  Every part of the pattern
    matches whitespace only, so a match that starts at a newline lies within
    that newline and the whitespace run after it; there is one when the run
    holds two more newlines, and the greedy quantifiers then extend it to the
    last newline of the run. *)
Definition m_blank_lines : matcher :=
  fun _ s =>
    match s with
    | String c s' =>
        if is_newline c && (2 <=? ws_newlines s')
        then Some (S (ws_last_newline s'),
                   String newline (String newline EmptyString))
        else None
    | EmptyString => None
    end.

(** [[ \t]+] replaced by one space. *)
Definition m_blanks : matcher :=
  fun _ s =>
    match span_len is_blank s with
    | O => None
    | n => Some (n, " ")
    end.

(** [^\s+] replaced by nothing. *)
Definition m_leading_ws : matcher :=
  fun bol s =>
    if bol
    then match span_len isspace s with
         | O => None
         | n => Some (n, EmptyString)
         end
    else None.

(** [\*\*\s*\*\*] replaced by two asterisks. *)
Definition m_empty_bold : matcher :=
  fun _ s =>
    if startswith "**" s
    then let r := drop 2 s in
         let n := span_len isspace r in
         if startswith "**" (drop n r) then Some (2 + n + 2, "**") else None
    else None.

(** [\*\*([^*]+)\*\*\*] replaced by group 1 between two pairs of
    asterisks.  The group must be followed by an asterisk, so it is the whole
    run of characters other than the asterisk. *)
Definition m_bold_extra_star : matcher :=
  fun _ s =>
    if startswith "**" s
    then let r := drop 2 s in
         let n := span_len (fun c => negb (is_star c)) r in
         if (1 <=? n) && startswith "***" (drop n r)
         then Some (2 + n + 3, "**" +:+ take n r +:+ "**")
         else None
    else None.

(** [\.([A-Z])] replaced by the period, a space and group 1. *)
Definition m_sentence : matcher :=
  fun _ s =>
    match s with
    | String a (String b _) =>
        if Ascii.eqb a dot && isupper b
        then Some (2, String dot (String space (String b EmptyString)))
        else None
    | _ => None
    end.

Definition clean_response_text (text : string) : string :=
  if is_empty text then text
  else
    let text := replace "***" "**" text in
    let text := replace "****" "**" text in
    let text := replace "*****" "**" text in
    let text := re_sub m_bullet text in
    let text := re_sub m_blank_lines text in
    let text := re_sub m_blanks text in
    let text := re_sub m_leading_ws text in
    let text := re_sub m_empty_bold text in
    let text := re_sub m_bold_extra_star text in
    let text := re_sub m_sentence text in
    strip text.

(** A value held by a Python dict: a [str] or something else. *)
Inductive value : Type :=
  | VStr (s : string)
  | VInt (n : Z)
  | VBool (b : bool)
  | VNone.

(** [isinstance(value, str)]. *)
Definition is_str (v : value) : bool :=
  match v with VStr _ => true | _ => false end.

(** The loop of [clean_suggestions]: [cleaned] starts empty and receives
    every item of [suggestions] in turn. *)
Definition clean_suggestions (suggestions : gmap string value)
  : gmap string value :=
  map_fold
    (fun key v cleaned =>
       match v with
       | VStr text => <[key := VStr (clean_response_text text)]> cleaned
       | _ => <[key := v]> cleaned
       end)
    (∅ : gmap string value) suggestions.

(** ** fastapi_app.py: the [/chat] handler *)

(** A call either returns or raises; [Raised e] carries [str(e)]. *)
Inductive outcome (A : Type) : Type :=
  | Returned (a : A)
  | Raised (e : string).
Arguments Returned {A} a.
Arguments Raised {A} e.

#[global] Instance outcome_ret : MRet outcome := fun A a => Returned a.

(** Sequencing inside the [try] block: the first call that raises ends it. *)
#[global] Instance outcome_bind : MBind outcome :=
  fun A B k x =>
    match x with
    | Returned a => k a
    | Raised e => Raised e
    end.

(** Truth value of an optional string: [None] and the empty string are
    false. *)
Definition truthy (o : option string) : bool :=
  match o with
  | Some s => negb (is_empty s)
  | None => false
  end.

(** [a or b] for an optional string [a]. *)
Definition py_or (a : option string) (b : string) : string :=
  match a with
  | Some s => if is_empty s then b else s
  | None => b
  end.

Record ChatRequest : Type := {
  query : string;
  session_id : option string;
  format_table : bool
}.

(** The body of a 200 response. *)
Record ChatResponse : Type := {
  answer : string;
  suggestions : gmap string value;
  response_session_id : string
}.

Inductive response : Type :=
  | OK (body : ChatResponse)
  | HTTPException (status_code : nat) (detail : string).

(** What the handler is configured with and calls: the keys read from the
    environment, the value of [uuid.uuid4().hex] drawn for the request, and
    the functions imported from [llms], [vector_db], [qa_chain] and
    [groq_api], each of which may raise. *)
Record backend : Type := {
  llm : Type;
  embeddings : Type;
  chroma_db : Type;
  retriever : Type;
  chain : Type;
  GEMINI_API_KEY : option string;
  GROQ_API_KEY : option string;
  GOOGLE_CREDENTIALS_JSON : option string;
  uuid4_hex : string;
  init_gemini_llm : option string -> outcome llm;
  init_embeddings : option string -> outcome embeddings;
  load_chroma_db : embeddings -> outcome chroma_db;
  as_retriever : chroma_db -> nat -> outcome retriever;
  create_conversational_chain :
    llm -> retriever -> option string -> outcome chain;
  (** [chain.invoke(inputs, config)]: question, spiritual concept, life
      problem, scripture source, session id; the text entries of the
      result. *)
  invoke :
    chain -> string -> string -> string -> string -> string ->
    outcome (gmap string string);
  cached_groq_answers :
    string -> option string -> string -> string -> string ->
    outcome (gmap string value);
  merge_groq_and_rag_answers :
    llm -> string -> gmap string value -> string -> string -> string ->
    bool -> outcome string
}.

(** The mapping the handler starts from: every auxiliary model is
    unavailable. *)
Definition unavailable : gmap string value :=
  <["llama" := VStr "N/A"]>
    (<["mixtral" := VStr "N/A"]> (<["gemma" := VStr "N/A"]> ∅)).

Definition handle_chat (B : backend) (request : ChatRequest) : response :=
  let session_id :=
    py_or (session_id request) ("session_" +:+ uuid4_hex B) in
  let effective_query := query request in
  let format_as_table := contains_table_request effective_query in
  let attempt : outcome ChatResponse :=
    llm ← init_gemini_llm B (GEMINI_API_KEY B);
    embedding ← init_embeddings B (GEMINI_API_KEY B);
    db ← load_chroma_db B embedding;
    retriever ← as_retriever B db 5;
    conversational_qa_chain ←
      create_conversational_chain B llm retriever
        (GOOGLE_CREDENTIALS_JSON B);
    let spiritual_concept := extract_spiritual_concept effective_query in
    let life_problem := extract_life_problem effective_query in
    let scripture_source := extract_scripture_source effective_query in
    rag_result ←
      invoke B conversational_qa_chain effective_query spiritual_concept
        life_problem scripture_source session_id;
    let raw_rag_answer :=
      default "Could not retrieve from knowledge base."
        (rag_result !! "answer") in
    let rag_answer := clean_response_text raw_rag_answer in
    suggestions ←
      (if truthy (GROQ_API_KEY B)
       then raw_suggestions ←
              cached_groq_answers B effective_query (GROQ_API_KEY B)
                spiritual_concept life_problem scripture_source;
            Returned (clean_suggestions raw_suggestions)
       else Returned unavailable);
    final_answer ←
      merge_groq_and_rag_answers B llm rag_answer suggestions
        spiritual_concept life_problem scripture_source format_as_table;
    let final_answer := clean_response_text final_answer in
    Returned {| answer := final_answer;
                suggestions := suggestions;
                response_session_id := session_id |}
  in
  match attempt with
  | Returned body => OK body
  | Raised e => HTTPException 500 ("Internal server error: " +:+ e)
  end.

(** The keywords of a table, whatever their category. *)
Definition keywords (t : table) : list string := concat (map snd t).

(** The label sets of the three extractors. *)
Definition concept_labels : list string :=
  ["dharma"; "karma"; "moksha"; "atman"; "brahman"; "yoga"; "bhakti";
   "jnana"; "seva"; "reincarnation"; "maya"; "nirvana"; "guna"; "sanskara";
   "sattva"; "rajas"; "tamas"; "general"].

Definition problem_labels : list string :=
  ["stress"; "anger"; "grief"; "purpose"; "fear"; "relationships";
   "suffering"; "decision making"; "materialism"; "ego"; "depression";
   "guidance"].

Definition source_labels : list string :=
  ["Bhagavad Gita"; "Veda"; "Upanishad"; "Purana"; "Ramayana"; "Mahabharata";
   "Yoga Sutras"; "Dharma Shastras"; "Hatha Yoga Pradipika"; "Shiva Sutras";
   "Brahma Sutras"; "Vedanta"; "Hindu scriptures"].

(** [k] occurs in [q] as a substring. *)
Definition occurs_in (k q : string) : Prop :=
  exists pre post, q = pre +:+ k +:+ post.

(** What [clean_suggestions] stores for one value. *)
Definition clean_value (v : value) : value :=
  match v with
  | VStr text => VStr (clean_response_text text)
  | _ => v
  end.

(** [B] with another [cached_groq_answers]. *)
Definition with_cached_groq_answers (B : backend)
    (f : string -> option string -> string -> string -> string ->
         outcome (gmap string value)) : backend :=
  {| llm := llm B;
     embeddings := embeddings B;
     chroma_db := chroma_db B;
     retriever := retriever B;
     chain := chain B;
     GEMINI_API_KEY := GEMINI_API_KEY B;
     GROQ_API_KEY := GROQ_API_KEY B;
     GOOGLE_CREDENTIALS_JSON := GOOGLE_CREDENTIALS_JSON B;
     uuid4_hex := uuid4_hex B;
     init_gemini_llm := init_gemini_llm B;
     init_embeddings := init_embeddings B;
     load_chroma_db := load_chroma_db B;
     as_retriever := as_retriever B;
     create_conversational_chain := create_conversational_chain B;
     invoke := invoke B;
     cached_groq_answers := f;
     merge_groq_and_rag_answers := merge_groq_and_rag_answers B |}.

(** No call on the primary path of the handler (model, embeddings, vector
    store, chain, merge) raises. *)
Definition primary_path_returns (B : backend) : Prop :=
  (forall key, exists x, init_gemini_llm B key = Returned x) /\
  (forall key, exists x, init_embeddings B key = Returned x) /\
  (forall e, exists x, load_chroma_db B e = Returned x) /\
  (forall db k, exists x, as_retriever B db k = Returned x) /\
  (forall l r creds, exists x,
     create_conversational_chain B l r creds = Returned x) /\
  (forall c q sc lp ss sid, exists x, invoke B c q sc lp ss sid = Returned x) /\
  (forall l a s sc lp ss t, exists x,
     merge_groq_and_rag_answers B l a s sc lp ss t = Returned x).

(** A backend for examples: no Groq key, every service answers, the chain
    and the merge echo the question. *)
Definition echo_backend : backend :=
  {| llm := unit;
     embeddings := unit;
     chroma_db := unit;
     retriever := unit;
     chain := unit;
     GEMINI_API_KEY := Some "gemini-key";
     GROQ_API_KEY := None;
     GOOGLE_CREDENTIALS_JSON := None;
     uuid4_hex := "0123456789abcdef0123456789abcdef";
     init_gemini_llm := fun _ => Returned tt;
     init_embeddings := fun _ => Returned tt;
     load_chroma_db := fun _ => Returned tt;
     as_retriever := fun _ _ => Returned tt;
     create_conversational_chain := fun _ _ _ => Returned tt;
     invoke := fun _ q _ _ _ _ => Returned (<["answer" := q]> ∅);
     cached_groq_answers := fun _ _ _ _ _ => Raised "no Groq key";
     merge_groq_and_rag_answers := fun _ a _ _ _ _ _ => Returned a |}.

(** ** Shapes of a text, for the properties of the cleaner *)

(** No two adjacent characters of [p] followed by [s] are related by [F]. *)
Fixpoint pairs_ok (F : ascii -> ascii -> bool) (p : ascii) (s : string)
  : Prop :=
  match s with
  | EmptyString => True
  | String c s' => F p c = false /\ pairs_ok F c s'
  end.

(** Every character of [s] satisfies [Q]. *)
Fixpoint all_chars (Q : ascii -> bool) (s : string) : Prop :=
  match s with
  | EmptyString => True
  | String c s' => Q c = true /\ all_chars Q s'
  end.

(** [c] is related by [F] to no character, on either side. *)
Definition neutral (F : ascii -> ascii -> bool) (c : ascii) : Prop :=
  forall a, F a c = false /\ F c a = false.

Fixpoint last_char (p : ascii) (s : string) : ascii :=
  match s with
  | EmptyString => p
  | String c s' => last_char c s'
  end.

(** Two asterisks; two blanks; a newline then whitespace; a period then an
    upper-case letter. *)
Definition star_pair (a b : ascii) : bool := is_star a && is_star b.
Definition blank_pair (a b : ascii) : bool := is_blank a && is_blank b.
Definition line_pair (a b : ascii) : bool := is_newline a && isspace b.
Definition dot_upper (a b : ascii) : bool := Ascii.eqb a dot && isupper b.

Definition not_tab (c : ascii) : bool := negb (Ascii.eqb c tab).

(** ** Further shapes, for the properties of the classifier *)

(** [c in string.punctuation]. *)
Definition is_punctuation (c : ascii) : bool := has_char c punctuation.

(** Every character of [s] satisfies [Q], as a test. *)
Fixpoint every (Q : ascii -> bool) (s : string) : bool :=
  match s with
  | EmptyString => true
  | String c s' => Q c && every Q s'
  end.

(** A keyword that cleaning a query cannot break: it is not empty, holds no
    punctuation mark, and neither begins nor ends with whitespace. *)
Definition plain_keyword (k : string) : bool :=
  match k with
  | EmptyString => false
  | String c k' =>
      negb (isspace c) && negb (isspace (last_char c k'))
      && every (fun a => negb (is_punctuation a)) k
  end.

(** The labels [extract_scripture_source] can return. *)
Definition reachable_source_labels : list string :=
  ["Bhagavad Gita"; "Veda"; "Upanishad"; "Purana"; "Ramayana"; "Mahabharata";
   "Yoga Sutras"; "Dharma Shastras"; "Hatha Yoga Pradipika"; "Shiva Sutras";
   "Brahma Sutras"; "Hindu scriptures"].

(** ** fastapi_app.py: the history endpoint *)

(** A message of the history: [message.type], [message.content] when the
    message has the attribute, and [str(message)]. *)
Record stored_message : Type := {
  message_type : string;
  message_content : option string;
  message_str : string
}.

(** An item of the list [messages] the endpoint returns. *)
Record history_entry : Type := {
  entry_type : string;
  entry_content : string
}.

Record HistoryResponse : Type := {
  history_session_id : string;
  history_messages : list history_entry;
  history_count : nat
}.

Inductive history_response : Type :=
  | HistoryOK (body : HistoryResponse)
  | HistoryException (status_code : nat) (detail : string).

(** [clean_response_text(message.content) if hasattr(message, 'content')
    else str(message)]. *)
Definition entry_of (message : stored_message) : history_entry :=
  {| entry_type := message_type message;
     entry_content :=
       match message_content message with
       | Some content => clean_response_text content
       | None => message_str message
       end |}.

(** [load_messages session_id credentials] stands for building
    [GoogleSheetChatMessageHistory(session_id, GOOGLE_CREDENTIALS_JSON)] and
    reading its [messages], either of which may raise.  The loop appends one
    entry per message. *)
Definition get_chat_history_endpoint
    (load_messages : string -> option string -> outcome (list stored_message))
    (credentials : option string) (session_id : string) : history_response :=
  match load_messages session_id credentials with
  | Returned stored =>
      let messages :=
        fold_left (fun messages message => messages ++ [entry_of message])
          stored [] in
      HistoryOK {| history_session_id := session_id;
                   history_messages := messages;
                   history_count := length messages |}
  | Raised e => HistoryException 500 "Could not retrieve chat history"
  end.

(** A backend for examples with a Groq key: the aggregator answers for two
    models, one of them unavailable. *)
Definition groq_backend : backend :=
  {| llm := unit;
     embeddings := unit;
     chroma_db := unit;
     retriever := unit;
     chain := unit;
     GEMINI_API_KEY := Some "gemini-key";
     GROQ_API_KEY := Some "groq-key";
     GOOGLE_CREDENTIALS_JSON := None;
     uuid4_hex := "0123456789abcdef0123456789abcdef";
     init_gemini_llm := fun _ => Returned tt;
     init_embeddings := fun _ => Returned tt;
     load_chroma_db := fun _ => Returned tt;
     as_retriever := fun _ _ => Returned tt;
     create_conversational_chain := fun _ _ _ => Returned tt;
     invoke := fun _ q _ _ _ _ => Returned ∅;
     cached_groq_answers :=
       fun _ _ _ _ _ =>
         Returned (<["llama" := VStr "  Act.Do not cling  "]>
                     (<["gemma" := VStr "N/A"]> ∅));
     merge_groq_and_rag_answers := fun _ a _ _ _ _ _ => Returned a |}.

(** ** Asterisk runs, for the idempotence of the cleaner *)

(** [re.search(pattern, text) is not None]: the pattern matches at some
    position of the text. *)
Fixpoint found (m : matcher) (bol : bool) (s : string) : bool :=
  match m bol s with
  | Some _ => true
  | None =>
      match s with
      | EmptyString => false
      | String c s' => found m (is_newline c) s'
      end
  end.

Definition re_search (m : matcher) (text : string) : bool :=
  found m true text.

(** [text.count('*')]. *)
Fixpoint count_stars (s : string) : nat :=
  match s with
  | EmptyString => 0
  | String c s' => if is_star c then S (count_stars s') else count_stars s'
  end.

(** What the end of the text read so far looks like: nothing of interest, one
    asterisk, two asterisks, two asterisks and whitespace after them, or two
    asterisks, whitespace and one asterisk. *)
Inductive bold_state : Type :=
  | Plain
  | Star1
  | Pair
  | PairSpace
  | PairSpaceStar.

(** Reading one more character; [None] when it completes three asterisks in
    a row, or two pairs of asterisks with nothing but whitespace between. *)
Definition bold_step (q : bold_state) (c : ascii) : option bold_state :=
  if is_star c then
    match q with
    | Plain => Some Star1
    | Star1 => Some Pair
    | Pair => None
    | PairSpace => Some PairSpaceStar
    | PairSpaceStar => None
    end
  else if isspace c then
    match q with
    | Pair | PairSpace => Some PairSpace
    | _ => Some Plain
    end
  else Some Plain.

Fixpoint bold_run (q : bold_state) (s : string) : option bold_state :=
  match s with
  | EmptyString => Some q
  | String c s' =>
      match bold_step q c with
      | Some q' => bold_run q' s'
      | None => None
      end
  end.

(** ** Whitespace outside ASCII *)

Fixpoint of_bytes (codes : list nat) : string :=
  match codes with
  | [] => EmptyString
  | n :: rest => String (ascii_of_nat n) (of_bytes rest)
  end.

(** The UTF-8 encodings of the characters that Python counts as whitespace
    and that are not ASCII: U+0085, U+00A0, U+1680, U+2000 to U+200A, U+2028,
    U+2029, U+202F, U+205F and U+3000. *)
Definition unicode_spaces : list string :=
  map of_bytes
    [[194; 133]; [194; 160]; [225; 154; 128];
     [226; 128; 128]; [226; 128; 129]; [226; 128; 130]; [226; 128; 131];
     [226; 128; 132]; [226; 128; 133]; [226; 128; 134]; [226; 128; 135];
     [226; 128; 136]; [226; 128; 137]; [226; 128; 138];
     [226; 128; 168]; [226; 128; 169]; [226; 128; 175]; [226; 129; 159];
     [227; 128; 128]].

(** The text holds no whitespace character outside ASCII: on such a text the
    whitespace class of this file is the one of [str.strip], [str.split] and
    [\s]. *)
Definition no_unicode_space (s : string) : bool :=
  negb (any_in unicode_spaces s).


(** Whether the text after the first [k] characters of [s] starts a line. *)
Fixpoint bol_after (k : nat) (bol : bool) (s : string) : bool :=
  match k, s with
  | S k', String c s' => bol_after k' (is_newline c) s'
  | _, _ => bol
  end.

(** The state after a run of whitespace that is not empty, and the states
    that whitespace leaves as they are. *)
Definition after_space (q : bold_state) : bold_state :=
  match q with
  | Pair | PairSpace => PairSpace
  | _ => Plain
  end.

Definition settled (q : bold_state) : Prop := after_space q = q.

(** What a text that leaves the reader in state [q] ends with. *)
Definition ends_as (q : bold_state) (pre : string) : Prop :=
  match q with
  | Plain => True
  | Star1 => exists p, pre = p +:+ "*"
  | Pair => exists p, pre = p +:+ "**"
  | PairSpace =>
      exists p w, pre = p +:+ "**" +:+ w /\ all_chars isspace w
  | PairSpaceStar =>
      exists p w, pre = p +:+ "**" +:+ w +:+ "*" /\ all_chars isspace w
  end.

(** * Properties *)

#[local] Arguments String.append !s1 s2 : simpl nomatch.

(** ** Substrings and membership *)

Lemma startswith_spec (k s : string) :
  startswith k s = true <-> exists post, s = k +:+ post.
Proof.
  revert s. induction k as [|a k IH]; intros s; simpl.
  - split; [intros _; exists s; reflexivity | reflexivity].
  - destruct s as [|b s].
    + split; [discriminate | intros [post H]; discriminate].
    + rewrite andb_true_iff, Ascii.eqb_eq, IH. split.
      * intros [-> [post ->]]. exists post. reflexivity.
      * intros [post H]. injection H as -> ->. split; [reflexivity | eauto].
Qed.

Lemma contains_spec (k q : string) :
  contains k q = true <-> exists pre post, q = pre +:+ k +:+ post.
Proof.
  induction q as [|c q IH]; simpl.
  - rewrite orb_false_r, startswith_spec. split.
    + intros [post H]. exists EmptyString, post. exact H.
    + intros [pre [post H]]. destruct pre; [eauto | discriminate].
  - rewrite orb_true_iff, IH, startswith_spec. split.
    + intros [[post H] | [pre [post H]]].
      * exists EmptyString, post. exact H.
      * exists (String c pre), post. simpl. rewrite H. reflexivity.
    + intros [pre [post H]]. destruct pre as [|d pre]; simpl in H.
      * left. eauto.
      * right. injection H as _ H. eauto.
Qed.

Lemma mem_In (w : string) (l : list string) : mem w l = true <-> In w l.
Proof.
  unfold mem. rewrite existsb_exists. split.
  - intros [x [Hx Heq]]. apply String.eqb_eq in Heq. congruence.
  - intros H. exists w. split; [exact H | apply String.eqb_refl].
Qed.

Lemma any_in_spec (kws : list string) (q : string) :
  any_in kws q = true <-> exists k, In k kws /\ occurs_in k q.
Proof.
  unfold any_in, occurs_in. rewrite existsb_exists. split.
  - intros [k [Hk Hc]]. apply contains_spec in Hc. eauto.
  - intros [k [Hk H]]. exists k. split; [exact Hk|].
    apply contains_spec. exact H.
Qed.

Lemma any_in_false (kws : list string) (q : string) :
  any_in kws q = false <-> forall k, In k kws -> ~ occurs_in k q.
Proof.
  rewrite <- not_true_iff_false, any_in_spec. split.
  - intros H k Hk Hq. apply H. eauto.
  - intros H [k [Hk Hq]]. apply (H k Hk Hq).
Qed.

(** ** The extractors *)

Lemma first_category_Some (t : table) (q cat : string) :
  first_category t q = Some cat ->
  exists kws, In (cat, kws) t /\ any_in kws q = true.
Proof.
  induction t as [|[c ks] t IH]; simpl; [discriminate|].
  destruct (any_in ks q) eqn:E.
  - intros [= <-]. eauto.
  - intros H. destruct (IH H) as [kws [Hin Hany]]. eauto.
Qed.

Lemma first_category_None (t : table) (q : string) :
  first_category t q = None <-> any_in (keywords t) q = false.
Proof.
  unfold keywords, any_in.
  induction t as [|[c ks] t IH]; simpl; [tauto|].
  rewrite existsb_app, orb_false_iff.
  fold (any_in ks q). destruct (any_in ks q); [split; [discriminate | intros [? _]; discriminate]|].
  rewrite IH. tauto.
Qed.


Lemma forallb_In {A : Type} (p : A -> bool) (l : list A) (x : A) :
  forallb p l = true -> In x l -> p x = true.
Proof. intros H Hin. rewrite forallb_forall in H. auto. Qed.

Lemma first_category_label (t : table) (labels : list string)
    (f : string -> string) (q cat : string) :
  forallb (fun c => mem (f c) labels) (map fst t) = true ->
  first_category t q = Some cat -> In (f cat) labels.
Proof.
  intros Hall H. apply first_category_Some in H as [kws [Hin _]].
  apply mem_In. apply (forallb_In _ _ cat Hall).
  apply (in_map fst) in Hin. exact Hin.
Qed.

(** C3: whatever the query, each extractor returns one label of its fixed
    label set (the functions are total: nothing is raised), and when no
    keyword of the extractor's table occurs in the lower-cased query the
    label is the default: "general", "guidance", "Hindu scriptures". *)
Theorem extractors_return_a_label (query : string) :
  In (extract_spiritual_concept query) concept_labels /\
  In (extract_life_problem query) problem_labels /\
  In (extract_scripture_source query) source_labels /\
  ((forall k, In k (keywords concepts) -> ~ occurs_in k (lower query)) ->
   extract_spiritual_concept query = "general") /\
  ((forall k, In k (keywords problems) -> ~ occurs_in k (lower query)) ->
   extract_life_problem query = "guidance") /\
  ((forall k, In k (keywords sources) -> ~ occurs_in k (lower query)) ->
   extract_scripture_source query = "Hindu scriptures").
Proof.
  unfold extract_spiritual_concept, extract_life_problem,
    extract_scripture_source.
  repeat split.
  - destruct (first_category concepts (lower query)) as [c|] eqn:E.
    + apply (first_category_label concepts concept_labels (fun c => c) _ _
               eq_refl E).
    + apply mem_In. reflexivity.
  - destruct (first_category problems (lower query)) as [c|] eqn:E.
    + apply (first_category_label problems problem_labels (fun c => c) _ _
               eq_refl E).
    + apply mem_In. reflexivity.
  - destruct (first_category sources (lower query)) as [c|] eqn:E.
    + apply (first_category_label sources source_labels format_source _ _
               eq_refl E).
    + apply mem_In. reflexivity.
  - intros H. apply any_in_false, first_category_None in H. rewrite H.
    reflexivity.
  - intros H. apply any_in_false, first_category_None in H. rewrite H.
    reflexivity.
  - intros H. apply any_in_false, first_category_None in H. rewrite H.
    reflexivity.
Qed.

Lemma first_category_matches (t : table) (q : string) :
  any_in (keywords t) q = true ->
  exists cat kws,
    In (cat, kws) t /\ any_in kws q = true /\ first_category t q = Some cat.
Proof.
  intros H. destruct (first_category t q) as [cat|] eqn:E.
  - destruct (first_category_Some _ _ _ E) as [kws [Hin Hany]].
    exists cat, kws. auto.
  - apply first_category_None in E. congruence.
Qed.





(** ** Suggestions *)

Lemma clean_suggestions_fmap (suggestions : gmap string value) :
  clean_suggestions suggestions = clean_value <$> suggestions.
Proof.
  unfold clean_suggestions.
  apply (map_fold_weak_ind
           (fun (r : gmap string value) (m : gmap string value) =>
              r = clean_value <$> m)).
  - rewrite fmap_empty. reflexivity.
  - intros key v m r Hfresh ->. rewrite fmap_insert.
    destruct v; reflexivity.
Qed.

(** C9: [clean_suggestions] keeps the key set; a string value is replaced by
    its cleaned text and any other value is passed through unchanged. *)
Theorem clean_suggestions_spec (suggestions : gmap string value) :
  dom (clean_suggestions suggestions) = dom suggestions /\
  (forall key text,
     suggestions !! key = Some (VStr text) ->
     clean_suggestions suggestions !! key
     = Some (VStr (clean_response_text text))) /\
  (forall key v,
     suggestions !! key = Some v -> is_str v = false ->
     clean_suggestions suggestions !! key = Some v) /\
  clean_suggestions (<["a" := VStr "**x***"]> (<["b" := VInt 1]> ∅))
  = <["a" := VStr "**x**"]> (<["b" := VInt 1]> ∅).
Proof.
  rewrite clean_suggestions_fmap. split; [|split; [|split]].
  - apply dom_fmap_L.
  - intros key text H. rewrite lookup_fmap, H. reflexivity.
  - intros key v H Hv. rewrite lookup_fmap, H. destruct v; [discriminate|..];
      reflexivity.
  - vm_compute. reflexivity.
Qed.

(** ** The chat handler *)

Lemma unavailable_lookup (k : string) (v : value) :
  unavailable !! k = Some v ->
  (k = "llama" \/ k = "mixtral" \/ k = "gemma") /\ v = VStr "N/A".
Proof.
  unfold unavailable. intros H.
  destruct (decide (k = "llama")) as [->|H1].
  { rewrite lookup_insert_eq in H. injection H as <-. auto. }
  rewrite lookup_insert_ne in H by congruence.
  destruct (decide (k = "mixtral")) as [->|H2].
  { rewrite lookup_insert_eq in H. injection H as <-. auto. }
  rewrite lookup_insert_ne in H by congruence.
  destruct (decide (k = "gemma")) as [->|H3].
  { rewrite lookup_insert_eq in H. injection H as <-. auto. }
  rewrite lookup_insert_ne in H by congruence.
  rewrite lookup_empty in H. discriminate.
Qed.

(** What a 200 response tells: every call up to the chain returned, the
    chain was invoked under the session id of the response, and without a
    Groq key the suggestions are the initial mapping. *)
Lemma handle_chat_OK (B : backend) (request : ChatRequest)
    (body : ChatResponse) :
  handle_chat B request = OK body ->
  response_session_id body
  = py_or (session_id request) ("session_" +:+ uuid4_hex B) /\
  (exists l r c rag,
     create_conversational_chain B l r (GOOGLE_CREDENTIALS_JSON B)
     = Returned c /\
     invoke B c (query request)
       (extract_spiritual_concept (query request))
       (extract_life_problem (query request))
       (extract_scripture_source (query request))
       (response_session_id body) = Returned rag) /\
  (truthy (GROQ_API_KEY B) = false -> suggestions body = unavailable).
Proof.
  unfold handle_chat, mbind, outcome_bind.
  destruct (init_gemini_llm B _) as [l|]; [|discriminate].
  destruct (init_embeddings B _) as [e|]; [|discriminate].
  destruct (load_chroma_db B e) as [db|]; [|discriminate].
  destruct (as_retriever B db 5) as [r|]; [|discriminate].
  destruct (create_conversational_chain B l r _) as [c|] eqn:Ec;
    [|discriminate].
  destruct (invoke B c _ _ _ _ _) as [rag|] eqn:Ei; [|discriminate].
  destruct (truthy (GROQ_API_KEY B)).
  - destruct (cached_groq_answers B _ _ _ _ _) as [raw|]; [|discriminate].
    destruct (merge_groq_and_rag_answers B _ _ _ _ _ _ _) as [a|];
      [|discriminate].
    intros [= <-]. split; [reflexivity|]. split; [|discriminate].
    exists l, r, c, rag. split; [exact Ec | exact Ei].
  - destruct (merge_groq_and_rag_answers B _ _ _ _ _ _ _) as [a|];
      [|discriminate].
    intros [= <-]. split; [reflexivity|]. split; [|reflexivity].
    exists l, r, c, rag. split; [exact Ec | exact Ei].
Qed.

(** C7: with the Groq key unset the handler never consults the aggregator
    (its response is the same whatever [cached_groq_answers] would do), every
    200 response carries the all-unavailable mapping, whose keys are llama,
    mixtral and gemma and whose values are all "N/A", and the response is a
    200 whenever the primary path raises nothing. *)
Theorem chat_without_groq_key (B : backend) (request : ChatRequest) :
  truthy (GROQ_API_KEY B) = false ->
  (forall f,
     handle_chat (with_cached_groq_answers B f) request
     = handle_chat B request) /\
  (forall body,
     handle_chat B request = OK body -> suggestions body = unavailable) /\
  (primary_path_returns B -> exists body, handle_chat B request = OK body) /\
  dom unavailable = ({["llama"; "mixtral"; "gemma"]} : gset string) /\
  (forall k v, unavailable !! k = Some v -> v = VStr "N/A").
Proof.
  intros Hkey. split; [|split; [|split; [|split]]].
  - intros f. unfold handle_chat, mbind, outcome_bind. simpl.
    rewrite Hkey. reflexivity.
  - intros body H. apply (handle_chat_OK B request body H). exact Hkey.
  - intros (Hllm & Hemb & Hdb & Hret & Hchain & Hinv & Hmerge).
    unfold handle_chat, mbind, outcome_bind. rewrite Hkey.
    destruct (Hllm (GEMINI_API_KEY B)) as [l ->].
    destruct (Hemb (GEMINI_API_KEY B)) as [e ->].
    destruct (Hdb e) as [db ->].
    destruct (Hret db 5) as [r ->].
    destruct (Hchain l r (GOOGLE_CREDENTIALS_JSON B)) as [c ->].
    match goal with |- context [invoke B c ?q ?sc ?lp ?ss ?sid] =>
      destruct (Hinv c q sc lp ss sid) as [rag ->] end.
    match goal with
    | |- context [merge_groq_and_rag_answers B l ?a ?s ?sc ?lp ?ss ?t] =>
        destruct (Hmerge l a s sc lp ss t) as [ans ->]
    end.
    eexists. reflexivity.
  - unfold unavailable. rewrite !dom_insert_L, dom_empty_L. set_solver.
  - intros k v H. apply (unavailable_lookup k v H).
Qed.

Lemma echo_backend_returns : primary_path_returns echo_backend.
Proof. unfold primary_path_returns. simpl. repeat split; eauto. Qed.

Lemma chat_without_groq_key_witness :
  truthy (GROQ_API_KEY echo_backend) = false /\
  exists body,
    handle_chat echo_backend
      {| query := "what is dharma"; session_id := Some "s1";
         format_table := false |} = OK body /\
    suggestions body = unavailable.
Proof.
  split; [reflexivity|].
  pose proof (chat_without_groq_key echo_backend
    {| query := "what is dharma"; session_id := Some "s1";
       format_table := false |} eq_refl) as (_ & Hsugg & Hok & _).
  destruct (Hok echo_backend_returns) as [body Hbody].
  exists body. split; [exact Hbody | exact (Hsugg body Hbody)].
Defined.

(** C8, as the code has it: in a 200 response the session id is the supplied
    one when it is a non-empty string, and "session_" followed by the hex
    digits of the UUID drawn for the request when it is omitted or empty; it
    is the session id under which the chain was invoked. *)
Theorem chat_session_id (B : backend) (request : ChatRequest)
    (body : ChatResponse) :
  handle_chat B request = OK body ->
  (session_id request = None ->
   response_session_id body = "session_" +:+ uuid4_hex B) /\
  (forall s, session_id request = Some s -> s <> "" ->
   response_session_id body = s) /\
  (session_id request = Some "" ->
   response_session_id body = "session_" +:+ uuid4_hex B) /\
  (exists l r c rag,
     create_conversational_chain B l r (GOOGLE_CREDENTIALS_JSON B)
     = Returned c /\
     invoke B c (query request)
       (extract_spiritual_concept (query request))
       (extract_life_problem (query request))
       (extract_scripture_source (query request))
       (response_session_id body) = Returned rag).
Proof.
  intros H. apply handle_chat_OK in H as (Hid & Hinvoke & _).
  split; [|split; [|split]]; try exact Hinvoke; rewrite Hid.
  - intros ->. reflexivity.
  - intros s -> Hs. destruct s; [contradiction | reflexivity].
  - intros ->. reflexivity.
Qed.

Lemma chat_session_id_witness :
  exists body,
    handle_chat echo_backend
      {| query := "how do I deal with anger according to the gita";
         session_id := Some "s1"; format_table := false |} = OK body /\
    response_session_id body = "s1" /\
    answer body = "how do I deal with anger according to the gita".
Proof.
  eexists. split; [reflexivity|]. split; [|reflexivity].
  refine (proj1 (proj2 (chat_session_id echo_backend
            {| query := "how do I deal with anger according to the gita";
               session_id := Some "s1"; format_table := false |} _ eq_refl))
            "s1" eq_refl _).
  discriminate.
Defined.

(** An empty session id is supplied, another one comes back. *)
Lemma chat_session_id_empty_replaced :
  exists body,
    handle_chat echo_backend
      {| query := "what is dharma"; session_id := Some "";
         format_table := false |} = OK body /\
    response_session_id body = "session_0123456789abcdef0123456789abcdef" /\
    response_session_id body <> "".
Proof.
  eexists. split; [reflexivity|]. split; [reflexivity | discriminate].
Qed.
(** ** The cleaner: substitution in general *)

#[local] Arguments Ascii.eqb : simpl never.
#[local] Arguments m_literal : simpl never.
#[local] Arguments m_bullet : simpl never.
#[local] Arguments m_blank_lines : simpl never.
#[local] Arguments m_blanks : simpl never.
#[local] Arguments m_leading_ws : simpl never.
#[local] Arguments m_empty_bold : simpl never.
#[local] Arguments m_bold_extra_star : simpl never.
#[local] Arguments m_sentence : simpl never.

Lemma append_assoc (a b c : string) : (a +:+ b) +:+ c = a +:+ b +:+ c.
Proof.
  induction a as [|x a IH]; simpl; [reflexivity | rewrite IH; reflexivity].
Qed.

Lemma pairs_ok_app (F : ascii -> ascii -> bool) (p : ascii) (r o : string) :
  pairs_ok F p (r +:+ o) <-> pairs_ok F p r /\ pairs_ok F (last_char p r) o.
Proof.
  revert p. induction r as [|c r IH]; intros p; simpl.
  - tauto.
  - rewrite IH. tauto.
Qed.

(** A substitution keeps a text free of [F]-pairs when every replacement is
    free of them and begins and ends with neutral characters, and the
    pattern, if it can delete its match, is anchored at a line start, the
    newline being neutral. *)
Section PairsKept.
  Variable F : ascii -> ascii -> bool.
  Variable m : matcher.
  Hypothesis replacement_ok :
    forall bol t n r,
      m bol t = Some (n, r) ->
      match r with
      | EmptyString => bol = true /\ neutral F newline
      | String a r' =>
          neutral F a /\ neutral F (last_char a r') /\ pairs_ok F a r'
      end.

Lemma sub_from_pairs_ok (s : string) :
  forall k bol p q,
    pairs_ok F q s ->
    neutral F p \/ (k = 0 /\ bol = is_newline p /\ pairs_ok F p s) ->
    pairs_ok F p (sub_from m k bol s).
Proof.
  induction s as [|c s IH]; intros k bol p q Hq Hp; simpl; [exact I|].
  destruct Hq as [_ Hin].
  destruct k as [|k].
  - destruct (m bol (String c s)) as [[n r]|] eqn:E.
    + specialize (replacement_ok _ _ _ _ E).
      destruct r as [|a r'].
      * destruct replacement_ok as [-> Hnl]. simpl.
        apply (IH _ _ _ c Hin). left.
        destruct Hp as [Hp | (_ & Hb & _)]; [exact Hp|].
        symmetry in Hb. apply Ascii.eqb_eq in Hb. subst p. exact Hnl.
      * destruct replacement_ok as (Ha & Hl & Hr). simpl. split.
        { apply (Ha p). }
        apply pairs_ok_app. split; [exact Hr|].
        apply (IH _ _ _ c Hin). left. exact Hl.
    + split.
      * destruct Hp as [Hp | (_ & _ & Hpc & _)]; [apply (Hp c) | exact Hpc].
      * apply (IH _ _ _ c Hin). right. auto.
  - destruct Hp as [Hp | (Hk & _)]; [|discriminate].
    apply (IH _ _ _ c Hin). left. exact Hp.
Qed.

Lemma re_sub_pairs_ok (s : string) :
  pairs_ok F newline s -> pairs_ok F newline (re_sub m s).
Proof.
  intros H. unfold re_sub. apply (sub_from_pairs_ok s 0 true newline newline H).
  right. auto.
Qed.

End PairsKept.

(** After a substitution every character satisfies [Q] when the replacements
    do, and the characters that are copied do. *)
Lemma sub_from_all_chars (Q' Q : ascii -> bool) (m : matcher) :
  (forall bol c t, m bol (String c t) = None -> Q' c = true -> Q c = true) ->
  (forall bol t n r, m bol t = Some (n, r) -> all_chars Q r) ->
  forall s k bol, all_chars Q' s -> all_chars Q (sub_from m k bol s).
Proof.
  intros Hcopy Hm. induction s as [|c s IH]; intros k bol Hall; simpl;
    [exact I|].
  destruct Hall as [Hc Hs].
  destruct k as [|k]; [|apply IH; exact Hs].
  destruct (m bol (String c s)) as [[n r]|] eqn:E.
  - specialize (Hm _ _ _ _ E). clear E. induction r as [|a r IHr]; simpl.
    + apply IH. exact Hs.
    + destruct Hm as [Ha Hr]. split; [exact Ha | apply IHr; exact Hr].
  - split; [exact (Hcopy _ _ _ E Hc) | apply IH; exact Hs].
Qed.

(** A substitution leaves a text as it is when, wherever the pattern matches,
    the match is one character replaced by itself. *)
Section Unchanged.
  Variable F : ascii -> ascii -> bool.
  Variable Q : ascii -> bool.
  Variable m : matcher.
  Hypothesis no_change :
    forall p c t,
      pairs_ok F p (String c t) -> all_chars Q (String c t) ->
      m (is_newline p) (String c t) = None \/
      m (is_newline p) (String c t) = Some (1, String c EmptyString).

Lemma sub_from_unchanged (s : string) :
  forall p, pairs_ok F p s -> all_chars Q s ->
            sub_from m 0 (is_newline p) s = s.
Proof.
  induction s as [|c s IH]; intros p Hp Hq; simpl; [reflexivity|].
  destruct (no_change p c s Hp Hq) as [-> | ->]; simpl;
    rewrite (IH c); try reflexivity; simpl in *; tauto.
Qed.

Lemma re_sub_unchanged (s : string) :
  pairs_ok F newline s -> all_chars Q s -> re_sub m s = s.
Proof. apply (sub_from_unchanged s newline). Qed.

End Unchanged.

(** ** The cleaner: characters *)

Lemma isupper_plain (b : ascii) :
  isupper b = true ->
  is_star b = false /\ is_blank b = false /\ isspace b = false /\
  is_newline b = false /\ Ascii.eqb b dot = false /\ not_tab b = true.
Proof.
  destruct b as [[] [] [] [] [] [] [] []]; intros H; vm_compute in H;
    try discriminate H; vm_compute; repeat split; reflexivity.
Qed.

Lemma is_blank_cases (c : ascii) :
  is_blank c = true -> not_tab c = true -> c = space.
Proof.
  unfold is_blank, not_tab. rewrite orb_true_iff, negb_true_iff.
  intros [H | H] Ht; [apply Ascii.eqb_eq in H; exact H | congruence].
Qed.

Lemma is_newline_eq (c : ascii) : is_newline c = true -> c = newline.
Proof. apply Ascii.eqb_eq. Qed.

Lemma is_star_eq (c : ascii) : is_star c = true -> c = star.
Proof. apply Ascii.eqb_eq. Qed.

Lemma neutral_star_pair (c : ascii) :
  is_star c = false -> neutral star_pair c.
Proof.
  intros H a. unfold star_pair. rewrite H, andb_false_r. auto.
Qed.

Lemma neutral_blank_pair (c : ascii) :
  is_blank c = false -> neutral blank_pair c.
Proof.
  intros H a. unfold blank_pair. rewrite H, andb_false_r. auto.
Qed.

Lemma neutral_line_pair (c : ascii) :
  is_newline c = false -> isspace c = false -> neutral line_pair c.
Proof.
  intros H1 H2 a. unfold line_pair. rewrite H1, H2, andb_false_r. auto.
Qed.

(** Splits the conjunctions of a goal, and only them. *)
Ltac split_all :=
  repeat match goal with
         | |- _ /\ _ => split
         | |- True => exact I
         end.

(** ** The cleaner: what each pattern matches *)

Lemma m_blank_lines_Some (bol : bool) (t : string) (n : nat) (r : string) :
  m_blank_lines bol t = Some (n, r) ->
  r = String newline (String newline EmptyString) /\
  exists t', t = String newline t' /\ 2 <= ws_newlines t'.
Proof.
  unfold m_blank_lines. destruct t as [|c t']; [discriminate|].
  destruct (is_newline c) eqn:Ec, (2 <=? ws_newlines t') eqn:E2;
    cbn [andb]; try discriminate.
  intros [= <- <-]. split; [reflexivity|].
  exists t'. apply is_newline_eq in Ec. subst c.
  apply Nat.leb_le in E2. auto.
Qed.

Lemma m_blanks_Some (bol : bool) (t : string) (n : nat) (r : string) :
  m_blanks bol t = Some (n, r) -> r = " " /\ n = span_len is_blank t.
Proof.
  unfold m_blanks. destruct (span_len is_blank t); [discriminate|].
  intros [= <- <-]. auto.
Qed.

Lemma m_leading_ws_Some (bol : bool) (t : string) (n : nat) (r : string) :
  m_leading_ws bol t = Some (n, r) ->
  r = EmptyString /\ bol = true /\ n = span_len isspace t.
Proof.
  unfold m_leading_ws. destruct bol; [|discriminate].
  destruct (span_len isspace t); [discriminate|].
  intros [= <- <-]. auto.
Qed.

Lemma m_sentence_Some (bol : bool) (t : string) (n : nat) (r : string) :
  m_sentence bol t = Some (n, r) ->
  exists b t', t = String dot (String b t') /\ isupper b = true /\
               n = 2 /\ r = String dot (String space (String b EmptyString)).
Proof.
  unfold m_sentence. destruct t as [|a [|b t']]; try discriminate.
  destruct (Ascii.eqb a dot) eqn:Ea, (isupper b) eqn:Eb; cbn [andb];
    try discriminate.
  intros [= <- <-]. apply Ascii.eqb_eq in Ea. subst a. eauto 10.
Qed.

(** ** The cleaner: pairs of asterisks are never created *)

Lemma blank_lines_keeps_star_pairs (s : string) :
  pairs_ok star_pair newline s ->
  pairs_ok star_pair newline (re_sub m_blank_lines s).
Proof.
  apply re_sub_pairs_ok. intros bol t n r H.
  apply m_blank_lines_Some in H as [-> _]. simpl.
  split_all; try reflexivity; apply neutral_star_pair; reflexivity.
Qed.

Lemma blanks_keeps_star_pairs (s : string) :
  pairs_ok star_pair newline s ->
  pairs_ok star_pair newline (re_sub m_blanks s).
Proof.
  apply re_sub_pairs_ok. intros bol t n r H.
  apply m_blanks_Some in H as [-> _]. simpl.
  split_all; try reflexivity; apply neutral_star_pair; reflexivity.
Qed.

Lemma leading_ws_keeps_star_pairs (s : string) :
  pairs_ok star_pair newline s ->
  pairs_ok star_pair newline (re_sub m_leading_ws s).
Proof.
  apply re_sub_pairs_ok. intros bol t n r H.
  apply m_leading_ws_Some in H as (-> & -> & _).
  split; [reflexivity | apply neutral_star_pair; reflexivity].
Qed.

Lemma sentence_keeps_star_pairs (s : string) :
  pairs_ok star_pair newline s ->
  pairs_ok star_pair newline (re_sub m_sentence s).
Proof.
  apply re_sub_pairs_ok. intros bol t n r H.
  apply m_sentence_Some in H as (b & t' & _ & Hb & _ & ->).
  apply isupper_plain in Hb as (Hs & _). simpl.
  split_all; try reflexivity; apply neutral_star_pair;
    first [reflexivity | exact Hs].
Qed.

(** ** The cleaner: single blanks stay single *)

Lemma leading_ws_keeps_blank_pairs (s : string) :
  pairs_ok blank_pair newline s ->
  pairs_ok blank_pair newline (re_sub m_leading_ws s).
Proof.
  apply re_sub_pairs_ok. intros bol t n r H.
  apply m_leading_ws_Some in H as (-> & -> & _).
  split; [reflexivity | apply neutral_blank_pair; reflexivity].
Qed.

Lemma sentence_keeps_blank_pairs (s : string) :
  pairs_ok blank_pair newline s ->
  pairs_ok blank_pair newline (re_sub m_sentence s).
Proof.
  apply re_sub_pairs_ok. intros bol t n r H.
  apply m_sentence_Some in H as (b & t' & _ & Hb & _ & ->).
  apply isupper_plain in Hb as (_ & Hb & _). simpl.
  split_all;
    first [ reflexivity
          | apply neutral_blank_pair; first [reflexivity | exact Hb]
          | unfold blank_pair; rewrite Hb; apply andb_false_r ].
Qed.

Lemma sentence_keeps_line_pairs (s : string) :
  pairs_ok line_pair newline s ->
  pairs_ok line_pair newline (re_sub m_sentence s).
Proof.
  apply re_sub_pairs_ok. intros bol t n r H.
  apply m_sentence_Some in H as (b & t' & _ & Hb & _ & ->).
  apply isupper_plain in Hb as (_ & _ & Hsp & Hnl & _). simpl.
  split_all; try reflexivity; apply neutral_line_pair;
    first [reflexivity | assumption].
Qed.

Lemma leading_ws_keeps_not_tab (s : string) :
  all_chars not_tab s -> all_chars not_tab (re_sub m_leading_ws s).
Proof.
  apply sub_from_all_chars; [auto|]. intros bol t n r H.
  apply m_leading_ws_Some in H as (-> & _). exact I.
Qed.

Lemma sentence_keeps_not_tab (s : string) :
  all_chars not_tab s -> all_chars not_tab (re_sub m_sentence s).
Proof.
  apply sub_from_all_chars; [auto|]. intros bol t n r H.
  apply m_sentence_Some in H as (b & t' & _ & Hb & _ & ->).
  apply isupper_plain in Hb as (_ & _ & _ & _ & _ & Hb). simpl. auto.
Qed.

(** ** The cleaner: what each substitution establishes *)

Lemma sub_blanks_spaced (s : string) :
  forall bol,
    (forall p, is_blank p = false ->
               pairs_ok blank_pair p (sub_from m_blanks 0 bol s)) /\
    (forall p, pairs_ok blank_pair p
                 (sub_from m_blanks (span_len is_blank s) bol s)).
Proof.
  induction s as [|c s IH]; intros bol; [simpl; auto|].
  assert (Hcopy : is_blank c = false ->
                  forall p, pairs_ok blank_pair p
                              (sub_from m_blanks 0 bol (String c s))).
  { intros Ec p. simpl. unfold m_blanks. simpl. rewrite Ec. simpl. split.
    - unfold blank_pair. rewrite Ec. apply andb_false_r.
    - apply IH. exact Ec. }
  split; intros p.
  - intros Hp. destruct (is_blank c) eqn:Ec; [|apply Hcopy; reflexivity].
    simpl. unfold m_blanks. simpl. rewrite Ec. simpl. split.
    + unfold blank_pair. rewrite Hp. reflexivity.
    + apply IH.
  - simpl span_len. destruct (is_blank c) eqn:Ec.
    + simpl. apply IH.
    + apply Hcopy. reflexivity.
Qed.

Lemma blanks_makes_single (s : string) :
  pairs_ok blank_pair newline (re_sub m_blanks s) /\
  all_chars not_tab (re_sub m_blanks s).
Proof.
  split.
  - apply sub_blanks_spaced. reflexivity.
  - apply (sub_from_all_chars (fun _ => true) not_tab).
    + intros bol c t H _. unfold m_blanks in H. simpl in H.
      destruct (is_blank c) eqn:Ec; [discriminate|].
      unfold is_blank in Ec. apply orb_false_iff in Ec as [_ Ec].
      unfold not_tab. rewrite Ec. reflexivity.
    + intros bol t n r H. apply m_blanks_Some in H as [-> _].
      simpl. auto.
    + clear. induction s; simpl; auto.
Qed.

Lemma sub_leading_ws_tight (s : string) :
  (forall p, pairs_ok line_pair p
               (sub_from m_leading_ws 0 (is_newline p) s)) /\
  (forall p bol, pairs_ok line_pair p
                   (sub_from m_leading_ws (span_len isspace s) bol s)).
Proof.
  induction s as [|c s [IHa IHb]]; [simpl; auto|].
  assert (Hcopy : forall p bol,
            m_leading_ws bol (String c s) = None ->
            line_pair p c = false ->
            pairs_ok line_pair p
              (sub_from m_leading_ws 0 bol (String c s))).
  { intros p bol Hm Hpc. simpl sub_from. rewrite Hm. split; [exact Hpc|].
    apply IHa. }
  split.
  - intros p. destruct (is_newline p) eqn:Ep.
    + destruct (isspace c) eqn:Ec.
      * simpl. unfold m_leading_ws. simpl. rewrite Ec. simpl. apply IHb.
      * apply Hcopy.
        -- unfold m_leading_ws. simpl. rewrite Ec. reflexivity.
        -- unfold line_pair. rewrite Ec. apply andb_false_r.
    + apply Hcopy; [reflexivity|]. unfold line_pair. rewrite Ep. reflexivity.
  - intros p bol. simpl span_len. destruct (isspace c) eqn:Ec.
    + simpl. apply IHb.
    + apply Hcopy.
      * unfold m_leading_ws. simpl. rewrite Ec. destruct bol; reflexivity.
      * unfold line_pair. rewrite Ec. apply andb_false_r.
Qed.

Lemma leading_ws_makes_tight (s : string) :
  pairs_ok line_pair newline (re_sub m_leading_ws s).
Proof. apply (proj1 (sub_leading_ws_tight s) newline). Qed.

Lemma m_sentence_None (bol : bool) (c : ascii) (t : string) :
  Ascii.eqb c dot = false -> m_sentence bol (String c t) = None.
Proof.
  intros H. unfold m_sentence. destruct t; [reflexivity|]. rewrite H.
  reflexivity.
Qed.

Lemma sub_sentence_spaced (s : string) :
  forall bol p,
    match s with
    | EmptyString => True
    | String c _ => dot_upper p c = false
    end ->
    pairs_ok dot_upper p (sub_from m_sentence 0 bol s).
Proof.
  induction s as [|c s IH]; intros bol p Hp; [exact I|].
  simpl sub_from. destruct (m_sentence bol (String c s)) as [[n r]|] eqn:E.
  - apply m_sentence_Some in E as (b & t' & [= -> ->] & Hb & -> & ->).
    pose proof (isupper_plain b Hb) as (_ & _ & _ & _ & Hdot & _).
    specialize (IH (is_newline b) space eq_refl).
    simpl in IH. rewrite (m_sentence_None _ b t' Hdot) in IH.
    simpl. split; [exact Hp|]. split; [reflexivity|]. exact IH.
  - split; [exact Hp|]. apply IH. destruct s as [|b s']; [exact I|].
    unfold m_sentence in E. unfold dot_upper.
    destruct (Ascii.eqb c dot && isupper b); [discriminate | reflexivity].
Qed.

Lemma sentence_makes_spaced (s : string) :
  pairs_ok dot_upper newline (re_sub m_sentence s).
Proof. apply sub_sentence_spaced. destruct s; [exact I | reflexivity]. Qed.

(** ** The cleaner: substitutions that find nothing to change *)

Lemma startswith_two_stars (c : ascii) (t : string) :
  pairs_ok star_pair c t -> startswith "**" (String c t) = false.
Proof.
  destruct t as [|d t]; simpl.
  - intros _. apply andb_false_r.
  - intros [H _]. unfold star_pair, is_star in H.
    rewrite (Ascii.eqb_sym _ c), (Ascii.eqb_sym _ d), andb_true_r.
    exact H.
Qed.

Lemma startswith_longer (k1 k2 t : string) :
  startswith (k1 +:+ k2) t = true -> startswith k1 t = true.
Proof.
  rewrite !startswith_spec. intros [post ->].
  exists (k2 +:+ post). apply append_assoc.
Qed.

(** A pattern that begins with two asterisks leaves a text without adjacent
    asterisks as it is. *)
Lemma stars_unchanged (m : matcher) (s : string) :
  (forall bol t, startswith "**" t = false -> m bol t = None) ->
  pairs_ok star_pair newline s -> re_sub m s = s.
Proof.
  intros Hm Hs.
  apply (re_sub_unchanged star_pair (fun _ => true) m); [|exact Hs|].
  - intros p c t [_ H] _. left. apply Hm, startswith_two_stars, H.
  - clear. induction s; simpl; auto.
Qed.

Lemma m_literal_stars (k new : string) (bol : bool) (t : string) :
  startswith "**" t = false -> m_literal ("**" +:+ k) new bol t = None.
Proof.
  intros H. unfold m_literal.
  destruct (startswith ("**" +:+ k) t) eqn:E; [|reflexivity].
  apply startswith_longer in E. congruence.
Qed.

Lemma replace_stars_unchanged (k new s : string) :
  pairs_ok star_pair newline s -> replace ("**" +:+ k) new s = s.
Proof.
  intros H. unfold replace. simpl is_empty. cbv iota.
  apply stars_unchanged; [|exact H]. intros bol t. apply m_literal_stars.
Qed.

Lemma m_bullet_stars (bol : bool) (t : string) :
  startswith "**" t = false -> m_bullet bol t = None.
Proof.
  unfold m_bullet. destruct t as [|a [|b [|c [|d t]]]]; try reflexivity.
  intros H. destruct (is_star a) eqn:Ea, (is_star b) eqn:Eb;
    rewrite ?andb_false_r; try reflexivity.
  apply is_star_eq in Ea, Eb. subst a b. discriminate H.
Qed.

Lemma m_empty_bold_stars (bol : bool) (t : string) :
  startswith "**" t = false -> m_empty_bold bol t = None.
Proof. intros H. unfold m_empty_bold. rewrite H. reflexivity. Qed.

Lemma m_bold_extra_star_stars (bol : bool) (t : string) :
  startswith "**" t = false -> m_bold_extra_star bol t = None.
Proof. intros H. unfold m_bold_extra_star. rewrite H. reflexivity. Qed.

Lemma blank_lines_unchanged (s : string) :
  pairs_ok line_pair newline s -> re_sub m_blank_lines s = s.
Proof.
  intros Hs.
  apply (re_sub_unchanged line_pair (fun _ => true)); [|exact Hs|].
  - intros p c t [_ H] _. left. unfold m_blank_lines.
    destruct (is_newline c) eqn:Ec; [|reflexivity].
    destruct t as [|d t]; [reflexivity|]. destruct H as [H _].
    unfold line_pair in H. rewrite Ec in H. simpl in H.
    simpl. rewrite H. reflexivity.
  - clear. induction s; simpl; auto.
Qed.

Lemma blanks_unchanged (s : string) :
  pairs_ok blank_pair newline s -> all_chars not_tab s ->
  re_sub m_blanks s = s.
Proof.
  apply (re_sub_unchanged blank_pair not_tab).
  intros p c t [_ H] [Hc _]. unfold m_blanks. simpl.
  destruct (is_blank c) eqn:Ec; [|left; reflexivity].
  right. rewrite (is_blank_cases c Ec Hc).
  destruct t as [|d t]; [reflexivity|]. destruct H as [H _].
  unfold blank_pair in H. rewrite Ec in H. simpl in H.
  simpl. rewrite H. reflexivity.
Qed.

Lemma leading_ws_unchanged (s : string) :
  pairs_ok line_pair newline s -> re_sub m_leading_ws s = s.
Proof.
  intros Hs.
  apply (re_sub_unchanged line_pair (fun _ => true)); [|exact Hs|].
  - intros p c t [H _] _. left. unfold m_leading_ws.
    destruct (is_newline p) eqn:Ep; [|reflexivity].
    unfold line_pair in H. rewrite Ep in H. simpl in H.
    simpl. rewrite H. reflexivity.
  - clear. induction s; simpl; auto.
Qed.

Lemma sentence_unchanged (s : string) :
  pairs_ok dot_upper newline s -> re_sub m_sentence s = s.
Proof.
  intros Hs.
  apply (re_sub_unchanged dot_upper (fun _ => true)); [|exact Hs|].
  - intros p c t [_ H] _. left. unfold m_sentence.
    destruct t as [|b t]; [reflexivity|]. destruct H as [H _].
    unfold dot_upper in H. rewrite H. reflexivity.
  - clear. induction s; simpl; auto.
Qed.

(** ** The cleaner: trimming *)

Lemma lstrip_tight (s : string) :
  pairs_ok line_pair newline s -> lstrip s = s.
Proof.
  destruct s as [|c s]; [reflexivity|]. intros [H _].
  change (isspace c = false) in H. simpl. rewrite H. reflexivity.
Qed.

Lemma rstrip_pairs_ok (F : ascii -> ascii -> bool) (s : string) :
  forall p, pairs_ok F p s -> pairs_ok F p (rstrip s).
Proof.
  induction s as [|c s IH]; intros p H; [exact I|].
  destruct H as [Hpc Hs]. simpl.
  destruct (isspace c && is_empty (rstrip s)); [exact I|].
  split; [exact Hpc | apply IH; exact Hs].
Qed.

Lemma rstrip_all_chars (Q : ascii -> bool) (s : string) :
  all_chars Q s -> all_chars Q (rstrip s).
Proof.
  induction s as [|c s IH]; intros H; [exact I|].
  destruct H as [Hc Hs]. simpl.
  destruct (isspace c && is_empty (rstrip s)); [exact I|].
  split; [exact Hc | apply IH; exact Hs].
Qed.

Lemma rstrip_rstrip (s : string) : rstrip (rstrip s) = rstrip s.
Proof.
  induction s as [|c s IH]; [reflexivity|]. simpl.
  destruct (isspace c) eqn:Ec; simpl.
  - destruct (rstrip s) as [|d r] eqn:Er; [reflexivity|].
    simpl in *. rewrite Ec, IH. simpl. reflexivity.
  - rewrite Ec, IH. reflexivity.
Qed.

(** ** The cleaner applied twice *)

Lemma no_star_pairs (x : string) :
  contains "**" x = false -> pairs_ok star_pair newline x.
Proof.
  assert (H : forall s c, contains "**" (String c s) = false ->
                          pairs_ok star_pair c s).
  { induction s as [|d s IH]; intros c Hc; [exact I|].
    change (startswith "**" (String c (String d s))
            || contains "**" (String d s) = false) in Hc.
    apply orb_false_iff in Hc as [Hcd Hs]. split; [|apply IH; exact Hs].
    change (Ascii.eqb star c && (Ascii.eqb star d && true) = false) in Hcd.
    unfold star_pair, is_star.
    rewrite (Ascii.eqb_sym c), (Ascii.eqb_sym d).
    rewrite andb_true_r in Hcd. exact Hcd. }
  destruct x as [|c s]; [intros _; exact I|].
  intros Hx. split; [reflexivity | apply H; exact Hx].
Qed.

(** On a text without adjacent asterisks only the whitespace rules, the
    sentence spacing and the final trim act. *)
Lemma clean_without_star_pairs (x : string) :
  pairs_ok star_pair newline x ->
  clean_response_text x
  = rstrip (re_sub m_sentence (re_sub m_leading_ws
      (re_sub m_blanks (re_sub m_blank_lines x)))).
Proof.
  intros Hx. destruct x as [|c x]; [reflexivity|].
  unfold clean_response_text. simpl is_empty. cbv iota zeta.
  rewrite (replace_stars_unchanged "*" "**" _ Hx
           : replace "***" "**" _ = _).
  rewrite (replace_stars_unchanged "**" "**" _ Hx
           : replace "****" "**" _ = _).
  rewrite (replace_stars_unchanged "***" "**" _ Hx
           : replace "*****" "**" _ = _).
  rewrite (stars_unchanged m_bullet _ m_bullet_stars Hx).
  set (t := re_sub m_leading_ws (re_sub m_blanks
              (re_sub m_blank_lines (String c x)))).
  assert (Ht : pairs_ok star_pair newline t).
  { apply leading_ws_keeps_star_pairs, blanks_keeps_star_pairs,
      blank_lines_keeps_star_pairs, Hx. }
  rewrite (stars_unchanged m_empty_bold _ m_empty_bold_stars Ht).
  rewrite (stars_unchanged m_bold_extra_star _ m_bold_extra_star_stars Ht).
  unfold strip. rewrite lstrip_tight; [reflexivity|].
  apply sentence_keeps_line_pairs, leading_ws_makes_tight.
Qed.

(** The second cleaning removes the pair of asterisks that the first one
    left. *)
Lemma clean_response_text_not_idempotent :
  clean_response_text "** ** **" = "** **" /\
  clean_response_text (clean_response_text "** ** **") = "**" /\
  clean_response_text (clean_response_text "** ** **")
  <> clean_response_text "** ** **".
Proof. split; [reflexivity|]. split; [reflexivity | discriminate]. Qed.

(** C2: a run of three or of five asterisks becomes two, a run of four
    becomes three: the triple is replaced first and leaves no run of four
    for the second replacement. *)
Theorem four_asterisks_left_as_three :
  clean_response_text "a***b" = "a**b" /\
  clean_response_text "a*****b" = "a**b" /\
  replace "***" "**" "a****b" = "a***b" /\
  clean_response_text "a****b" = "a***b".
Proof. repeat split; reflexivity. Qed.

(** Matches are taken from the left and do not overlap. *)
Example replace_from_the_left : replace "aa" "b" "aaaaa" = "bba".
Proof. reflexivity. Qed.

Example clean_response_text_sentence :
  clean_response_text "Hello.World" = "Hello. World".
Proof. reflexivity. Qed.

(** The bullet rule sees three asterisks at a line start only where the
    text had four. *)
Example clean_response_text_bullet :
  clean_response_text "***x" = "**x" /\
  clean_response_text "****x" = bullet +:+ "x".
Proof. split; reflexivity. Qed.

(** Blank lines go, blanks are squeezed, lines and the text are trimmed. *)
Example clean_response_text_whitespace :
  clean_response_text
    ("a" +:+ String newline (String newline (String space
       (String newline (String tab ("b  c " +:+ String newline ""))))))
  = "a" +:+ String newline "b c".
Proof. reflexivity. Qed.

(** * Further properties *)

(** ** The cleaner: the shape of every result *)

Lemma pairs_ok_take (F : ascii -> ascii -> bool) (n : nat) (s : string) :
  forall p, pairs_ok F p s -> pairs_ok F p (take n s).
Proof.
  revert s. induction n as [|n IH]; intros s p H; [destruct s; exact I|].
  destruct s as [|c s]; [exact I|]. destruct H as [Hpc Hs].
  simpl. split; [exact Hpc | apply IH; exact Hs].
Qed.

Lemma all_chars_take (Q : ascii -> bool) (n : nat) (s : string) :
  all_chars Q s -> all_chars Q (take n s).
Proof.
  revert s. induction n as [|n IH]; intros s H; [destruct s; exact I|].
  destruct s as [|c s]; [exact I|]. destruct H as [Hc Hs].
  simpl. split; [exact Hc | apply IH; exact Hs].
Qed.

Lemma all_chars_app (Q : ascii -> bool) (r o : string) :
  all_chars Q (r +:+ o) <-> all_chars Q r /\ all_chars Q o.
Proof. induction r as [|c r IH]; simpl; [tauto | rewrite IH; tauto]. Qed.

Lemma last_char_app (p : ascii) (r o : string) :
  last_char p (r +:+ o) = last_char (last_char p r) o.
Proof. revert p. induction r as [|c r IH]; intros p; simpl; auto. Qed.

(** As [sub_from_pairs_ok], for a pattern whose replacement copies a part of
    the match: the replacement is judged knowing that the match is free of
    [F]-pairs. *)
Section PairsKeptCopying.
  Variable F : ascii -> ascii -> bool.
  Variable m : matcher.
  Hypothesis replacement_ok :
    forall bol c t n r,
      m bol (String c t) = Some (n, r) -> pairs_ok F c t ->
      match r with
      | EmptyString => bol = true /\ neutral F newline
      | String a r' =>
          neutral F a /\ neutral F (last_char a r') /\ pairs_ok F a r'
      end.

Lemma sub_from_copying_pairs_ok (s : string) :
  forall k bol p q,
    pairs_ok F q s ->
    neutral F p \/ (k = 0 /\ bol = is_newline p /\ pairs_ok F p s) ->
    pairs_ok F p (sub_from m k bol s).
Proof.
  induction s as [|c s IH]; intros k bol p q Hq Hp; simpl; [exact I|].
  destruct Hq as [_ Hin].
  destruct k as [|k].
  - destruct (m bol (String c s)) as [[n r]|] eqn:E.
    + specialize (replacement_ok _ _ _ _ _ E Hin).
      destruct r as [|a r'].
      * destruct replacement_ok as [-> Hnl]. simpl.
        apply (IH _ _ _ c Hin). left.
        destruct Hp as [Hp | (_ & Hb & _)]; [exact Hp|].
        symmetry in Hb. apply is_newline_eq in Hb. subst p. exact Hnl.
      * destruct replacement_ok as (Ha & Hl & Hr). simpl. split.
        { apply (Ha p). }
        apply pairs_ok_app. split; [exact Hr|].
        apply (IH _ _ _ c Hin). left. exact Hl.
    + split.
      * destruct Hp as [Hp | (_ & _ & Hpc & _)]; [apply (Hp c) | exact Hpc].
      * apply (IH _ _ _ c Hin). right. auto.
  - destruct Hp as [Hp | (Hk & _)]; [|discriminate].
    apply (IH _ _ _ c Hin). left. exact Hp.
Qed.

Lemma re_sub_copying_pairs_ok (s : string) :
  pairs_ok F newline s -> pairs_ok F newline (re_sub m s).
Proof.
  intros H. unfold re_sub.
  apply (sub_from_copying_pairs_ok s 0 true newline newline H).
  right. auto.
Qed.

End PairsKeptCopying.

(** As [sub_from_all_chars], for a replacement that copies a part of the
    match. *)
Lemma sub_from_copying_all_chars (Q : ascii -> bool) (m : matcher) :
  (forall bol t n r, m bol t = Some (n, r) -> all_chars Q t ->
                     all_chars Q r) ->
  forall s k bol, all_chars Q s -> all_chars Q (sub_from m k bol s).
Proof.
  intros Hm. induction s as [|c s IH]; intros k bol Hall; simpl;
    [exact I|].
  destruct k as [|k]; [|apply IH; apply Hall].
  destruct (m bol (String c s)) as [[n r]|] eqn:E.
  - apply all_chars_app. split; [exact (Hm _ _ _ _ E Hall)|].
    apply IH. apply Hall.
  - split; [apply Hall | apply IH; apply Hall].
Qed.

Lemma m_empty_bold_Some (bol : bool) (t : string) (n : nat) (r : string) :
  m_empty_bold bol t = Some (n, r) -> r = "**".
Proof.
  unfold m_empty_bold. destruct (startswith "**" t); [|discriminate].
  destruct (startswith "**" _); [|discriminate]. intros [= <- <-].
  reflexivity.
Qed.

Lemma m_bold_extra_star_Some (bol : bool) (t : string) (n : nat)
    (r : string) :
  m_bold_extra_star bol t = Some (n, r) ->
  exists t' k,
    t = String star (String star t') /\
    r = String star (String star (take k t' +:+ "**")).
Proof.
  unfold m_bold_extra_star. destruct (startswith "**" t) eqn:E;
    [|discriminate].
  apply startswith_spec in E as [t' ->].
  destruct (_ && _); [|discriminate]. intros [= <- <-].
  exists t', (span_len (fun c => negb (is_star c)) t'). split; reflexivity.
Qed.

(** A relation that no asterisk enters is kept by the two rules on bold
    markers. *)
Lemma bold_rules_keep_pairs (F : ascii -> ascii -> bool) (s : string) :
  neutral F star ->
  pairs_ok F newline s ->
  pairs_ok F newline (re_sub m_bold_extra_star (re_sub m_empty_bold s)).
Proof.
  intros Hstar Hs. apply re_sub_copying_pairs_ok.
  - intros bol c t n r H Hin.
    apply m_bold_extra_star_Some in H as (t' & k & [= -> ->] & ->).
    assert (Hlast : forall u, last_char star (u +:+ "**") = star).
    { intros u. rewrite last_char_app. reflexivity. }
    split; [exact Hstar|]. split.
    + change (String star (take k t' +:+ "**"))
        with ("*" +:+ take k t' +:+ "**").
      rewrite last_char_app. simpl last_char at 2. rewrite Hlast.
      exact Hstar.
    + split; [apply Hstar|]. apply pairs_ok_app. split.
      * apply pairs_ok_take. apply Hin.
      * simpl. split; [apply Hstar|]. split; [apply Hstar | exact I].
  - apply re_sub_pairs_ok; [|exact Hs].
    intros bol t n r H. apply m_empty_bold_Some in H as ->.
    simpl. split; [exact Hstar|]. split; [exact Hstar|].
    split; [apply Hstar | exact I].
Qed.

Lemma bold_rules_keep_not_tab (s : string) :
  all_chars not_tab s ->
  all_chars not_tab (re_sub m_bold_extra_star (re_sub m_empty_bold s)).
Proof.
  intros Hs. apply sub_from_copying_all_chars.
  - intros bol t n r H Ht.
    apply m_bold_extra_star_Some in H as (t' & k & -> & ->).
    destruct Ht as (_ & _ & Ht'). simpl.
    split; [reflexivity|]. split; [reflexivity|].
    apply all_chars_app. split; [apply all_chars_take, Ht'|].
    simpl. auto.
  - apply sub_from_all_chars with (Q' := not_tab); [auto| |exact Hs].
    intros bol t n r H. apply m_empty_bold_Some in H as ->. simpl. auto.
Qed.

(** What holds of [clean_response_text x] whatever [x] is: blanks are single
    spaces, no line starts with whitespace, a period is not followed by an
    upper-case letter, and the ends are trimmed. *)
Lemma clean_response_text_shape (x : string) :
  pairs_ok blank_pair newline (clean_response_text x) /\
  all_chars not_tab (clean_response_text x) /\
  pairs_ok line_pair newline (clean_response_text x) /\
  pairs_ok dot_upper newline (clean_response_text x) /\
  rstrip (clean_response_text x) = clean_response_text x.
Proof.
  destruct x as [|c0 x0]; [simpl; auto|].
  unfold clean_response_text. simpl is_empty. cbv iota zeta.
  set (x1 := re_sub m_blank_lines _).
  set (w := re_sub m_leading_ws (re_sub m_blanks x1)).
  set (t := re_sub m_sentence
              (re_sub m_bold_extra_star (re_sub m_empty_bold w))).
  assert (Hline : pairs_ok line_pair newline t).
  { apply sentence_keeps_line_pairs, bold_rules_keep_pairs.
    - apply neutral_line_pair; reflexivity.
    - apply leading_ws_makes_tight. }
  assert (Hblank : pairs_ok blank_pair newline t).
  { apply sentence_keeps_blank_pairs, bold_rules_keep_pairs.
    - apply neutral_blank_pair; reflexivity.
    - apply leading_ws_keeps_blank_pairs, blanks_makes_single. }
  assert (Htab : all_chars not_tab t).
  { apply sentence_keeps_not_tab, bold_rules_keep_not_tab,
      leading_ws_keeps_not_tab, blanks_makes_single. }
  assert (Hdot : pairs_ok dot_upper newline t).
  { apply sentence_makes_spaced. }
  unfold strip. rewrite (lstrip_tight t Hline).
  split; [apply rstrip_pairs_ok, Hblank|].
  split; [apply rstrip_all_chars, Htab|].
  split; [apply rstrip_pairs_ok, Hline|].
  split; [apply rstrip_pairs_ok, Hdot | apply rstrip_rstrip].
Qed.

(** ** The cleaner: the shape, read as substrings *)

(** The two characters [a], [b] as a string. *)
Lemma startswith_pair (a b c : ascii) (s : string) :
  startswith (String a (String b EmptyString)) (String c s) = true ->
  a = c /\ exists d s', s = String d s' /\ b = d.
Proof.
  simpl. destruct s as [|d s']; rewrite andb_true_iff.
  - intros [_ H]. discriminate H.
  - rewrite andb_true_r, !Ascii.eqb_eq. intros [-> ->]. eauto.
Qed.

Lemma pairs_ok_contains (F : ascii -> ascii -> bool) (a b : ascii)
    (s : string) :
  F a b = true ->
  forall p, pairs_ok F p s ->
            contains (String a (String b EmptyString)) s = false.
Proof.
  intros Hab. induction s as [|c s IH]; intros p H; [reflexivity|].
  destruct H as [_ Hs].
  change (startswith (String a (String b EmptyString)) (String c s)
          || contains (String a (String b EmptyString)) s = false).
  rewrite (IH c Hs), orb_false_r.
  destruct (startswith _ _) eqn:E; [|reflexivity].
  apply startswith_pair in E as (-> & d & s' & -> & ->).
  destruct Hs as [Hcd _]. congruence.
Qed.

Lemma contains_pairs_ok (F : ascii -> ascii -> bool) (s : string) :
  (forall a b, F a b = true ->
               contains (String a (String b EmptyString)) s = false) ->
  forall p,
    match s with
    | EmptyString => True
    | String c _ => F p c = false
    end ->
    pairs_ok F p s.
Proof.
  induction s as [|c s IH]; intros Hno p Hp; [exact I|].
  split; [exact Hp|]. apply IH.
  - intros a b Hab. specialize (Hno a b Hab).
    change (startswith (String a (String b EmptyString)) (String c s)
            || contains (String a (String b EmptyString)) s = false) in Hno.
    apply orb_false_iff in Hno. apply Hno.
  - destruct s as [|d s']; [exact I|].
    destruct (F c d) eqn:Ecd; [|reflexivity].
    specialize (Hno c d Ecd).
    change (startswith (String c (String d EmptyString))
              (String c (String d s'))
            || contains (String c (String d EmptyString)) (String d s')
            = false) in Hno.
    simpl startswith in Hno. rewrite !Ascii.eqb_refl in Hno.
    discriminate Hno.
Qed.

Lemma not_tab_has_char (s : string) :
  all_chars not_tab s <-> has_char tab s = false.
Proof.
  induction s as [|c s IH]; simpl; [tauto|].
  rewrite orb_false_iff, <- IH. unfold not_tab.
  rewrite negb_true_iff, (Ascii.eqb_sym c tab). tauto.
Qed.

Lemma strip_tight (s : string) :
  pairs_ok line_pair newline s -> rstrip s = s -> strip s = s.
Proof. intros Hl Hr. unfold strip. rewrite (lstrip_tight s Hl). exact Hr. Qed.

(** X1: the result of [clean_response_text] is trimmed: stripping it again
    changes nothing. *)
Theorem clean_response_text_trimmed (x : string) :
  strip (clean_response_text x) = clean_response_text x.
Proof.
  destruct (clean_response_text_shape x) as (_ & _ & Hl & _ & Hr).
  apply strip_tight; assumption.
Qed.

(** X2: the result of [clean_response_text] holds no tab and no two adjacent
    spaces. *)
Theorem clean_response_text_single_spaces (x : string) :
  has_char tab (clean_response_text x) = false /\
  contains "  " (clean_response_text x) = false.
Proof.
  destruct (clean_response_text_shape x) as (Hb & Ht & _). split.
  - apply not_tab_has_char, Ht.
  - apply (pairs_ok_contains blank_pair space space _ eq_refl newline Hb).
Qed.

(** X3: in the result of [clean_response_text] no newline is followed by a
    whitespace character: there is no blank line, two newlines never meet,
    and no line starts with whitespace, the first one included. *)
Theorem clean_response_text_no_blank_line (x : string) :
  contains (String newline (String newline EmptyString))
    (clean_response_text x) = false /\
  (forall c, isspace c = true ->
     contains (String newline (String c EmptyString))
       (clean_response_text x) = false) /\
  lstrip (clean_response_text x) = clean_response_text x.
Proof.
  destruct (clean_response_text_shape x) as (_ & _ & Hl & _).
  split; [|split].
  - apply (pairs_ok_contains line_pair newline newline _ eq_refl newline Hl).
  - intros c Hc. apply (pairs_ok_contains line_pair newline c) with newline;
      [|exact Hl]. unfold line_pair. rewrite Hc. reflexivity.
  - apply lstrip_tight, Hl.
Qed.

(** X4: in the result of [clean_response_text] no period is followed by an
    upper-case letter. *)
Theorem clean_response_text_sentences_spaced (x : string) (c : ascii) :
  isupper c = true ->
  contains (String dot (String c EmptyString)) (clean_response_text x)
  = false.
Proof.
  intros Hc. destruct (clean_response_text_shape x) as (_ & _ & _ & Hd & _).
  apply (pairs_ok_contains dot_upper dot c) with newline; [|exact Hd].
  unfold dot_upper. rewrite Hc. reflexivity.
Qed.

Lemma clean_response_text_sentences_spaced_witness :
  isupper "W" = true /\
  contains ".W" "Hello.World" = true /\
  contains ".W" (clean_response_text "Hello.World") = false.
Proof.
  split; [reflexivity|]. split; [reflexivity|].
  apply (clean_response_text_sentences_spaced "Hello.World" "W").
  reflexivity.
Defined.

(** ** The query cleaner *)

Lemma lower_char_facts (c : ascii) :
  isspace (lower_char c) = isspace c /\
  is_punctuation (lower_char c) = is_punctuation c /\
  isupper (lower_char c) = false /\
  lower_char (lower_char c) = lower_char c.
Proof.
  destruct c as [[] [] [] [] [] [] [] []]; vm_compute; auto.
Qed.

Lemma lower_lower (s : string) : lower (lower s) = lower s.
Proof.
  induction s as [|c s IH]; simpl; [reflexivity|].
  rewrite IH. f_equal. apply lower_char_facts.
Qed.

Lemma lower_translate_delete_gen (d s : string) :
  (forall c, has_char (lower_char c) d = has_char c d) ->
  lower (translate_delete d s) = translate_delete d (lower s).
Proof.
  intros Hd. induction s as [|c s IH]; simpl; [reflexivity|].
  rewrite Hd. destruct (has_char c d); simpl; rewrite IH; reflexivity.
Qed.

Lemma lower_translate_delete (s : string) :
  lower (translate_delete punctuation s)
  = translate_delete punctuation (lower s).
Proof. apply lower_translate_delete_gen. apply lower_char_facts. Qed.

Lemma lower_lstrip (s : string) : lower (lstrip s) = lstrip (lower s).
Proof.
  induction s as [|c s IH]; simpl; [reflexivity|].
  destruct (lower_char_facts c) as (Hs & _). rewrite Hs.
  destruct (isspace c); [exact IH | reflexivity].
Qed.

Lemma lower_rstrip (s : string) : lower (rstrip s) = rstrip (lower s).
Proof.
  induction s as [|c s IH]; simpl; [reflexivity|].
  destruct (lower_char_facts c) as (Hs & _). rewrite Hs, <- IH.
  assert (He : is_empty (lower (rstrip s)) = is_empty (rstrip s))
    by (destruct (rstrip s); reflexivity).
  rewrite He. destruct (isspace c && is_empty (rstrip s)); reflexivity.
Qed.

Lemma lower_strip (s : string) : lower (strip s) = strip (lower s).
Proof. unfold strip. rewrite lower_rstrip, lower_lstrip. reflexivity. Qed.

Lemma lower_is_empty (s : string) : is_empty (lower s) = is_empty s.
Proof. destruct s; reflexivity. Qed.

(** Lower-casing first or last gives the same cleaned query. *)
Lemma _clean_query_lower (q : string) :
  _clean_query q = strip (translate_delete punctuation (lower q)).
Proof.
  unfold _clean_query. rewrite lower_strip, lower_translate_delete.
  reflexivity.
Qed.

Lemma translate_delete_clean (d s : string) :
  all_chars (fun c => negb (has_char c d)) s -> translate_delete d s = s.
Proof.
  induction s as [|c s IH]; intros H; [reflexivity|].
  destruct H as [Hc Hs]. simpl. apply negb_true_iff in Hc.
  rewrite Hc, (IH Hs). reflexivity.
Qed.

Lemma translate_delete_none_left (d s : string) :
  all_chars (fun c => negb (has_char c d)) (translate_delete d s).
Proof.
  induction s as [|c s IH]; simpl; [exact I|].
  destruct (has_char c d) eqn:E; [exact IH|].
  split; [rewrite E; reflexivity | exact IH].
Qed.

Lemma lstrip_all_chars (Q : ascii -> bool) (s : string) :
  all_chars Q s -> all_chars Q (lstrip s).
Proof.
  induction s as [|c s IH]; intros H; [exact I|].
  simpl. destruct (isspace c); [apply IH, H | exact H].
Qed.

Lemma lower_all_chars (Q : ascii -> bool) (s : string) :
  (forall c, Q c = true -> Q (lower_char c) = true) ->
  all_chars Q s -> all_chars Q (lower s).
Proof.
  intros HQ. induction s as [|c s IH]; intros H; [exact I|].
  destruct H as [Hc Hs]. simpl. split; [apply HQ, Hc | apply IH, Hs].
Qed.

Lemma lower_no_upper (s : string) :
  all_chars (fun c => negb (isupper c)) (lower s).
Proof.
  induction s as [|c s IH]; simpl; [exact I|].
  split; [|exact IH]. destruct (lower_char_facts c) as (_ & _ & -> & _).
  reflexivity.
Qed.

(** The first character of a left-stripped text is not whitespace. *)
Lemma lstrip_head (s : string) :
  match lstrip s with
  | EmptyString => True
  | String c _ => isspace c = false
  end.
Proof.
  induction s as [|c s IH]; simpl; [exact I|].
  destruct (isspace c) eqn:E; [exact IH | exact E].
Qed.

Lemma lstrip_rstrip (s : string) :
  match s with
  | EmptyString => True
  | String c _ => isspace c = false
  end ->
  lstrip (rstrip s) = rstrip s.
Proof.
  destruct s as [|c s]; [reflexivity|]. intros Hc. simpl.
  rewrite Hc. simpl. rewrite Hc. reflexivity.
Qed.

Lemma strip_strip (s : string) : strip (strip s) = strip s.
Proof.
  unfold strip. rewrite (lstrip_rstrip (lstrip s) (lstrip_head s)).
  apply rstrip_rstrip.
Qed.

Lemma _clean_query_no_punctuation (q : string) :
  all_chars (fun c => negb (is_punctuation c)) (_clean_query q).
Proof.
  unfold _clean_query, strip. apply lower_all_chars.
  - intros c Hc. destruct (lower_char_facts c) as (_ & -> & _). exact Hc.
  - apply rstrip_all_chars, lstrip_all_chars.
    apply (translate_delete_none_left punctuation).
Qed.

Lemma _clean_query_twice (q : string) :
  _clean_query (_clean_query q) = _clean_query q.
Proof.
  rewrite (_clean_query_lower (_clean_query q)).
  unfold _clean_query at 1. rewrite lower_lower.
  fold (_clean_query q).
  rewrite (translate_delete_clean punctuation _
             (_clean_query_no_punctuation q)).
  rewrite _clean_query_lower. apply strip_strip.
Qed.

(** X6: [_clean_query] is idempotent, and its result holds no punctuation
    mark and no upper-case letter and is trimmed. *)
Theorem _clean_query_normal_form (query : string) :
  _clean_query (_clean_query query) = _clean_query query /\
  all_chars (fun c => negb (is_punctuation c)) (_clean_query query) /\
  all_chars (fun c => negb (isupper c)) (_clean_query query) /\
  strip (_clean_query query) = _clean_query query.
Proof.
  split; [apply _clean_query_twice|].
  split; [apply _clean_query_no_punctuation|].
  split; [apply lower_no_upper|].
  rewrite _clean_query_lower. apply strip_strip.
Qed.

(** ** The probes *)

Lemma greetings_are_plain :
  forallb (fun g => (length (split g) <=? 3)
                    && negb (any_in TASK_KEYWORDS g)
                    && negb (any_in FORMATTING_KEYWORDS g)
                    && negb (is_empty g)) GREETINGS = true.
Proof. vm_compute. reflexivity. Qed.

Lemma greeting_plain (g : string) :
  In g GREETINGS ->
  (length (split g) <=? 3) = true /\
  any_in TASK_KEYWORDS g = false /\
  any_in FORMATTING_KEYWORDS g = false /\
  is_empty g = false.
Proof.
  intros Hg. pose proof (forallb_In _ _ g greetings_are_plain Hg) as H.
  rewrite !andb_true_iff, !negb_true_iff in H. tauto.
Qed.

(** X7: [is_greeting] holds exactly when the cleaned query is one of the
    greeting phrases: no greeting phrase has more than three words or
    contains a task keyword, so the two further tests of the function never
    change its result. *)
Theorem is_greeting_membership (query : string) :
  is_greeting query = true <-> In (_clean_query query) GREETINGS.
Proof.
  unfold is_greeting. destruct query as [|c q]; simpl is_empty; cbv iota.
  - split; [discriminate|]. intros H. apply mem_In in H. discriminate H.
  - cbv zeta. rewrite <- mem_In.
    destruct (mem (_clean_query (String c q)) GREETINGS) eqn:E;
      [|split; discriminate].
    apply mem_In, greeting_plain in E as (H3 & Ht & _).
    rewrite H3, Ht. split; reflexivity.
Qed.

(** A keyword without punctuation marks that begins and ends with a
    character other than whitespace. *)
Lemma translate_delete_app (d a b : string) :
  translate_delete d (a +:+ b)
  = translate_delete d a +:+ translate_delete d b.
Proof.
  induction a as [|c a IH]; simpl; [reflexivity|].
  destruct (has_char c d); simpl; rewrite IH; reflexivity.
Qed.

Lemma lstrip_app_word (a : string) (c : ascii) (r : string) :
  isspace c = false ->
  exists a', lstrip (a +:+ String c r) = a' +:+ String c r.
Proof.
  intros Hc. induction a as [|x a IH]; simpl.
  - rewrite Hc. exists EmptyString. reflexivity.
  - destruct (isspace x); [exact IH|]. exists (String x a). reflexivity.
Qed.

Lemma rstrip_app_word (w : string) (z : ascii) (b : string) :
  isspace z = false ->
  rstrip (w +:+ String z b) = w +:+ String z (rstrip b).
Proof.
  intros Hz. induction w as [|x w IH]; simpl.
  - rewrite Hz. reflexivity.
  - rewrite IH. destruct w; simpl; rewrite andb_false_r; reflexivity.
Qed.

Lemma keyword_split_last (k : string) :
  k <> EmptyString ->
  exists k0 z, k = k0 +:+ String z EmptyString /\ z = last_char space k.
Proof.
  induction k as [|c k IH]; intros Hk; [contradiction|].
  destruct k as [|d k'].
  - exists EmptyString, c. split; reflexivity.
  - destruct IH as (k0 & z & Hk0 & Hz); [discriminate|].
    exists (String c k0), z. split.
    + simpl. rewrite <- Hk0. reflexivity.
    + exact Hz.
Qed.

Lemma keyword_survives_cleaning (k q : string) :
  all_chars (fun c => negb (is_punctuation c)) k ->
  match k with
  | EmptyString => False
  | String c k' => isspace c = false /\ isspace (last_char c k') = false
  end ->
  occurs_in k (lower q) -> occurs_in k (_clean_query q).
Proof.
  intros Hp Hends (pre & post & Hq).
  rewrite _clean_query_lower, Hq, !translate_delete_app.
  rewrite (translate_delete_clean punctuation k Hp).
  set (a := translate_delete punctuation pre).
  set (b := translate_delete punctuation post).
  destruct k as [|c k']; [contradiction|]. destruct Hends as [Hc Hz].
  unfold strip.
  change (String c k' +:+ b) with (String c (k' +:+ b)).
  destruct (lstrip_app_word a c (k' +:+ b) Hc) as [a' ->].
  change (String c (k' +:+ b)) with (String c k' +:+ b).
  destruct (keyword_split_last (String c k')) as (k0 & z & Hk & Hzl);
    [discriminate|].
  simpl last_char in Hzl. rewrite <- Hzl in Hz.
  rewrite Hk, append_assoc, <- (append_assoc a' k0).
  change (String z EmptyString +:+ b) with (String z b).
  rewrite (rstrip_app_word _ z b Hz).
  exists a', (rstrip b). rewrite !append_assoc. reflexivity.
Qed.

Lemma every_all_chars (Q : ascii -> bool) (s : string) :
  every Q s = true -> all_chars Q s.
Proof.
  induction s as [|c s IH]; simpl; [auto|].
  rewrite andb_true_iff. intros [Hc Hs]. auto.
Qed.

Lemma plain_keyword_survives (k q : string) :
  plain_keyword k = true ->
  occurs_in k (lower q) -> occurs_in k (_clean_query q).
Proof.
  intros Hk. apply keyword_survives_cleaning.
  - destruct k as [|c k']; [discriminate|]. unfold plain_keyword in Hk.
    apply andb_true_iff in Hk as [_ Hk]. apply every_all_chars, Hk.
  - destruct k as [|c k']; [discriminate|]. unfold plain_keyword in Hk.
    rewrite !andb_true_iff, !negb_true_iff in Hk. tauto.
Qed.

Lemma formatting_keywords_are_plain :
  forallb plain_keyword FORMATTING_KEYWORDS = true.
Proof. vm_compute. reflexivity. Qed.

Lemma table_request_cleaned (q : string) :
  contains_table_request q = true ->
  any_in FORMATTING_KEYWORDS (_clean_query q) = true.
Proof.
  unfold contains_table_request. rewrite !any_in_spec.
  intros (k & Hk & Hq). exists k. split; [exact Hk|].
  apply plain_keyword_survives; [|exact Hq].
  apply (forallb_In _ _ k formatting_keywords_are_plain Hk).
Qed.


Lemma is_greeting_In (query : string) :
  is_greeting query = true -> In (_clean_query query) GREETINGS.
Proof.
  unfold is_greeting. destruct (is_empty query); [discriminate|].
  cbv zeta. rewrite !andb_true_iff. intros [[H _] _]. apply mem_In, H.
Qed.

(** X9: a greeting is never a formatting request nor a table request: no
    greeting phrase contains a formatting keyword. *)
Theorem greeting_excludes_formatting (query : string) :
  is_greeting query = true ->
  is_formatting_request query = false /\
  contains_table_request query = false.
Proof.
  intros H. apply is_greeting_In, greeting_plain in H as (_ & _ & Hf & _).
  split.
  - unfold is_formatting_request. destruct (is_empty query); [reflexivity|].
    cbv zeta. rewrite Hf. reflexivity.
  - destruct (contains_table_request query) eqn:E; [|reflexivity].
    apply table_request_cleaned in E. congruence.
Qed.

Lemma greeting_excludes_formatting_witness :
  is_greeting "  Namaste!! " = true /\
  is_formatting_request "  Namaste!! " = false /\
  contains_table_request "  Namaste!! " = false.
Proof.
  split; [reflexivity|].
  apply (greeting_excludes_formatting "  Namaste!! "). reflexivity.
Defined.

Lemma _clean_query_of_lower (q : string) :
  _clean_query (lower q) = _clean_query q.
Proof. rewrite !_clean_query_lower, lower_lower. reflexivity. Qed.

(** X10: the six classifiers ignore the case of ASCII letters: the lower-cased
    query gets the same answers as the query. *)
Theorem classifiers_ignore_case (query : string) :
  is_greeting (lower query) = is_greeting query /\
  is_formatting_request (lower query) = is_formatting_request query /\
  contains_table_request (lower query) = contains_table_request query /\
  extract_spiritual_concept (lower query) = extract_spiritual_concept query /\
  extract_life_problem (lower query) = extract_life_problem query /\
  extract_scripture_source (lower query) = extract_scripture_source query.
Proof.
  unfold is_greeting, is_formatting_request, contains_table_request,
    extract_spiritual_concept, extract_life_problem,
    extract_scripture_source.
  rewrite lower_is_empty, _clean_query_of_lower, lower_lower.
  repeat split; reflexivity.
Qed.

(** ** The labels the extractors reach *)

#[local] Arguments any_in : simpl never.

Lemma occurs_in_shorter (k ext q : string) :
  occurs_in (k +:+ ext) q -> occurs_in k q.
Proof.
  intros (pre & post & ->). exists pre, (ext +:+ post).
  rewrite append_assoc. reflexivity.
Qed.

Lemma any_in_head (k : string) (kws : list string) (q : string) :
  any_in (k :: kws) q = false -> contains k q = false.
Proof.
  unfold any_in. simpl. intros H. apply orb_false_iff in H. apply H.
Qed.

(** A query in which "vedanta" occurs holds "veda" as well, and the "veda"
    category is declared before "vedanta". *)
Lemma vedanta_is_shadowed (q : string) :
  first_category sources q <> Some "vedanta".
Proof.
  unfold sources. simpl first_category.
  repeat match goal with
         | |- context [if any_in ?kws q then _ else _] =>
             let E := fresh "E" in destruct (any_in kws q) eqn:E
         end; try discriminate.
  match goal with
  | Hveda : any_in ("veda" :: _) q = false,
    Hvedanta : any_in ["vedanta"] q = true |- _ =>
      apply any_in_head in Hveda;
      apply any_in_spec in Hvedanta as (k & [<-|[]] & Hocc);
      apply (occurs_in_shorter "veda" "nta") in Hocc;
      apply contains_spec in Hocc; congruence
  end.
Qed.

Lemma format_source_vedanta (c : string) :
  In c (map fst sources) -> format_source c = "Vedanta" -> c = "vedanta".
Proof.
  simpl. intros H.
  repeat (destruct H as [<-|H]; [vm_compute; try discriminate; auto|]).
  contradiction.
Qed.

(** X11: the labels each extractor can return.  Every label of the first two
    is returned for some query; [extract_scripture_source] returns every
    label but "Vedanta", which no query yields: a query with "vedanta" holds
    "veda", a keyword of an earlier category. *)
Theorem extractor_ranges (label : string) :
  ((exists query, extract_spiritual_concept query = label) <->
   In label concept_labels) /\
  ((exists query, extract_life_problem query = label) <->
   In label problem_labels) /\
  ((exists query, extract_scripture_source query = label) <->
   In label reachable_source_labels) /\
  extract_scripture_source "Advaita Vedanta" = "Veda".
Proof.
  split; [|split; [|split; [|reflexivity]]]; split.
  - intros [q <-]. unfold extract_spiritual_concept.
    destruct (first_category concepts (lower q)) as [c|] eqn:E.
    + apply (first_category_label concepts concept_labels (fun c => c) _ _
               eq_refl E).
    + apply mem_In. reflexivity.
  - intros H. exists label. apply mem_In in H. revert H.
    simpl In. simpl mem. unfold concept_labels, mem. simpl existsb.
    intros H. repeat (apply orb_true_iff in H as [H|H];
      [apply String.eqb_eq in H; subst label; vm_compute; reflexivity|]).
    discriminate H.
  - intros [q <-]. unfold extract_life_problem.
    destruct (first_category problems (lower q)) as [c|] eqn:E.
    + apply (first_category_label problems problem_labels (fun c => c) _ _
               eq_refl E).
    + apply mem_In. reflexivity.
  - intros H. exists label. apply mem_In in H. revert H.
    unfold problem_labels, mem. simpl existsb.
    intros H. repeat (apply orb_true_iff in H as [H|H];
      [apply String.eqb_eq in H; subst label; vm_compute; reflexivity|]).
    discriminate H.
  - intros [q <-]. unfold extract_scripture_source.
    destruct (first_category sources (lower q)) as [c|] eqn:E.
    + pose proof (first_category_label sources source_labels format_source
                    _ _ eq_refl E) as Hin.
      assert (Hne : format_source c <> "Vedanta").
      { intros Hv. apply first_category_Some in E as Hc.
        destruct Hc as (kws & Hc & _). apply (in_map fst) in Hc.
        apply (format_source_vedanta c Hc) in Hv. subst c.
        apply (vedanta_is_shadowed _ E). }
      revert Hin Hne. generalize (format_source c). intros l Hin Hne.
      simpl in Hin. simpl.
      repeat (destruct Hin as [Hin|Hin];
        [subst l; first [exfalso; apply Hne; reflexivity | auto 20]|]).
      contradiction.
    + apply mem_In. reflexivity.
  - intros H. exists (lower label). apply mem_In in H. revert H.
    unfold reachable_source_labels, mem. simpl existsb.
    intros H. repeat (apply orb_true_iff in H as [H|H];
      [apply String.eqb_eq in H; subst label; vm_compute; reflexivity|]).
    discriminate H.
Qed.

(** ** The chat handler, further *)

(** What a 200 response tells about the aggregator and the merge. *)
Lemma handle_chat_OK_flow (B : backend) (request : ChatRequest)
    (body : ChatResponse) :
  handle_chat B request = OK body ->
  exists l (rag : gmap string string) merged,
    merge_groq_and_rag_answers B l
      (clean_response_text
         (default "Could not retrieve from knowledge base."
            (rag !! "answer")))
      (suggestions body)
      (extract_spiritual_concept (query request))
      (extract_life_problem (query request))
      (extract_scripture_source (query request))
      (contains_table_request (query request)) = Returned merged /\
    answer body = clean_response_text merged /\
    (truthy (GROQ_API_KEY B) = true ->
     exists raw,
       cached_groq_answers B (query request) (GROQ_API_KEY B)
         (extract_spiritual_concept (query request))
         (extract_life_problem (query request))
         (extract_scripture_source (query request)) = Returned raw /\
       suggestions body = clean_suggestions raw).
Proof.
  unfold handle_chat, mbind, outcome_bind.
  destruct (init_gemini_llm B _) as [l|]; [|discriminate].
  destruct (init_embeddings B _) as [e|]; [|discriminate].
  destruct (load_chroma_db B e) as [db|]; [|discriminate].
  destruct (as_retriever B db 5) as [r|]; [|discriminate].
  destruct (create_conversational_chain B l r _) as [c|]; [|discriminate].
  destruct (invoke B c _ _ _ _ _) as [rag|]; [|discriminate].
  destruct (truthy (GROQ_API_KEY B)).
  - destruct (cached_groq_answers B _ _ _ _ _) as [raw|] eqn:Eg;
      [|discriminate].
    destruct (merge_groq_and_rag_answers B _ _ _ _ _ _ _) as [a|] eqn:Em;
      [|discriminate].
    intros [= <-]. exists l, rag, a. simpl.
    split; [exact Em|]. split; [reflexivity|]. intros _. eauto.
  - destruct (merge_groq_and_rag_answers B _ _ _ _ _ _ _) as [a|] eqn:Em;
      [|discriminate].
    intros [= <-]. exists l, rag, a. simpl.
    split; [exact Em|]. split; [reflexivity|]. discriminate.
Qed.

(** X12: with a Groq key, a 200 response carries the aggregator's answers
    under the aggregator's own keys, each string cleaned; the initial "N/A"
    mapping is not used, and when the aggregator raises for the query the
    request fails with status 500. *)
Theorem chat_with_groq_key (B : backend) (request : ChatRequest) :
  truthy (GROQ_API_KEY B) = true ->
  (forall body,
     handle_chat B request = OK body ->
     exists raw,
       cached_groq_answers B (query request) (GROQ_API_KEY B)
         (extract_spiritual_concept (query request))
         (extract_life_problem (query request))
         (extract_scripture_source (query request)) = Returned raw /\
       dom (suggestions body) = dom raw /\
       forall key, suggestions body !! key = clean_value <$> raw !! key) /\
  (forall e,
     cached_groq_answers B (query request) (GROQ_API_KEY B)
       (extract_spiritual_concept (query request))
       (extract_life_problem (query request))
       (extract_scripture_source (query request)) = Raised e ->
     exists detail, handle_chat B request = HTTPException 500 detail).
Proof.
  intros Hkey. split.
  - intros body H. apply handle_chat_OK_flow in H as (_ & _ & _ & _ & _ & H).
    destruct (H Hkey) as (raw & Hraw & ->). exists raw.
    rewrite clean_suggestions_fmap. split; [exact Hraw|].
    split; [apply dom_fmap_L | intros key; apply lookup_fmap].
  - intros e He. unfold handle_chat, mbind, outcome_bind.
    rewrite Hkey, He.
    destruct (init_gemini_llm B _); [|eauto].
    destruct (init_embeddings B _); [|eauto].
    destruct (load_chroma_db B _); [|eauto].
    destruct (as_retriever B _ 5); [|eauto].
    destruct (create_conversational_chain B _ _ _); [|eauto].
    destruct (invoke B _ _ _ _ _ _); eauto.
Qed.

Lemma chat_with_groq_key_witness :
  exists body,
    handle_chat groq_backend
      {| query := "what is karma"; session_id := None;
         format_table := false |} = OK body /\
    suggestions body !! "llama" = Some (VStr "Act. Do not cling") /\
    suggestions body !! "gemma" = Some (VStr "N/A") /\
    suggestions body !! "mixtral" = None.
Proof.
  eexists. split; [reflexivity|].
  destruct (proj1 (chat_with_groq_key groq_backend
    {| query := "what is karma"; session_id := None;
       format_table := false |} eq_refl) _ eq_refl)
    as (raw & Hraw & _ & Hlook).
  injection Hraw as <-. rewrite !Hlook. repeat split; reflexivity.
Defined.

(** X13: the answer of a 200 response is a cleaned text: trimmed, without tab,
    without two adjacent spaces and without blank line. *)
Theorem chat_answer_is_clean (B : backend) (request : ChatRequest)
    (body : ChatResponse) :
  handle_chat B request = OK body ->
  strip (answer body) = answer body /\
  has_char tab (answer body) = false /\
  contains "  " (answer body) = false /\
  contains (String newline (String newline EmptyString)) (answer body)
  = false.
Proof.
  intros H. apply handle_chat_OK_flow in H as (_ & _ & a & _ & -> & _).
  destruct (clean_response_text_shape a) as (Hb & Ht & Hl & _ & Hr).
  split; [apply strip_tight; assumption|].
  split; [apply not_tab_has_char, Ht|].
  split.
  - apply (pairs_ok_contains blank_pair space space _ eq_refl newline Hb).
  - apply (pairs_ok_contains line_pair newline newline _ eq_refl newline Hl).
Qed.

Lemma chat_answer_is_clean_witness :
  exists body,
    handle_chat echo_backend
      {| query := "  what   is dharma ?  "; session_id := None;
         format_table := false |} = OK body /\
    answer body = "what is dharma ?" /\
    strip (answer body) = answer body.
Proof.
  eexists. split; [reflexivity|]. split; [reflexivity|].
  apply (chat_answer_is_clean echo_backend
    {| query := "  what   is dharma ?  "; session_id := None;
       format_table := false |} _ eq_refl).
Defined.

(** X14: the field [format_table] of the request has no effect: the response
    is the same whatever its value, and the merge is asked for a table
    exactly when [contains_table_request] accepts the query; it receives the
    cleaned answer of the chain, or the fallback text when the chain's result
    has no answer. *)
Theorem chat_ignores_format_table (B : backend) (request : ChatRequest) :
  (forall flag,
     handle_chat B {| query := query request;
                      session_id := session_id request;
                      format_table := flag |}
     = handle_chat B request) /\
  (forall body,
     handle_chat B request = OK body ->
     exists l (rag : gmap string string) merged,
       merge_groq_and_rag_answers B l
         (clean_response_text
            (default "Could not retrieve from knowledge base."
               (rag !! "answer")))
         (suggestions body)
         (extract_spiritual_concept (query request))
         (extract_life_problem (query request))
         (extract_scripture_source (query request))
         (contains_table_request (query request)) = Returned merged /\
       answer body = clean_response_text merged).
Proof.
  split.
  - intros flag. reflexivity.
  - intros body H. apply handle_chat_OK_flow in H as (l & rag & a & H).
    exists l, rag, a. tauto.
Qed.

(** ** The history endpoint *)

Lemma fold_left_append_map {A B : Type} (f : A -> B) (l : list A)
    (acc : list B) :
  fold_left (fun acc x => acc ++ [f x]) l acc = acc ++ map f l.
Proof.
  revert acc. induction l as [|x l IH]; intros acc; simpl.
  - rewrite app_nil_r. reflexivity.
  - rewrite IH, <- app_assoc. reflexivity.
Qed.

(** X15: when the history can be read, the endpoint answers with one entry per
    stored message, in the stored order and with the stored types; [count] is
    the number of stored messages, and every content that comes from a
    message's [content] is a cleaned, trimmed text.  When reading raises, the
    answer is status 500 with a fixed detail, whatever was raised. *)
Theorem get_chat_history_endpoint_spec
    (load_messages : string -> option string -> outcome (list stored_message))
    (credentials : option string) (session_id : string) :
  (forall stored,
     load_messages session_id credentials = Returned stored ->
     exists body,
       get_chat_history_endpoint load_messages credentials session_id
       = HistoryOK body /\
       history_session_id body = session_id /\
       history_count body = length stored /\
       history_messages body = map entry_of stored /\
       map entry_type (history_messages body) = map message_type stored /\
       (forall i m content,
          stored !! i = Some m -> message_content m = Some content ->
          exists entry,
            history_messages body !! i = Some entry /\
            entry_content entry = clean_response_text content /\
            strip (entry_content entry) = entry_content entry)) /\
  (forall e,
     load_messages session_id credentials = Raised e ->
     get_chat_history_endpoint load_messages credentials session_id
     = HistoryException 500 "Could not retrieve chat history").
Proof.
  unfold get_chat_history_endpoint. split.
  - intros stored ->. eexists. split; [reflexivity|]. simpl.
    rewrite fold_left_append_map. simpl.
    split; [reflexivity|]. split; [apply length_map|].
    split; [reflexivity|]. split.
    + rewrite map_map. reflexivity.
    + intros i m content Hi Hc. exists (entry_of m). split.
      * rewrite list_lookup_fmap, Hi. reflexivity.
      * unfold entry_of. simpl. rewrite Hc. split; [reflexivity|].
        destruct (clean_response_text_shape content)
          as (_ & _ & Hl & _ & Hr).
        apply strip_tight; assumption.
  - intros e ->. reflexivity.
Qed.

(** ** Queries inside longer queries *)

Lemma lower_app (a b : string) : lower (a +:+ b) = lower a +:+ lower b.
Proof.
  induction a as [|c a IH]; simpl; [reflexivity | rewrite IH; reflexivity].
Qed.

Lemma occurs_in_context (k q pre post : string) :
  occurs_in k q -> occurs_in k (pre +:+ q +:+ post).
Proof.
  intros (a & b & ->). exists (pre +:+ a), (b +:+ post).
  rewrite !append_assoc. reflexivity.
Qed.

Lemma any_in_context (kws : list string) (q pre post : string) :
  any_in kws (lower q) = true ->
  any_in kws (lower (pre +:+ q +:+ post)) = true.
Proof.
  rewrite !any_in_spec, !lower_app. intros (k & Hk & Hq).
  exists k. split; [exact Hk | apply occurs_in_context, Hq].
Qed.

Lemma first_category_is_Some (t : table) (q : string) :
  any_in (keywords t) q = true -> exists c, first_category t q = Some c.
Proof.
  intros H. destruct (first_category_matches t q H) as (c & _ & _ & _ & Hc).
  eauto.
Qed.

(** An extractor leaves its default exactly when a keyword of its table
    occurs: no category is named like the default. *)
Lemma extractor_default (t : table) (f : string -> string)
    (default_label q : string) :
  forallb (fun c => negb (String.eqb (f c) default_label)) (map fst t)
  = true ->
  match first_category t q with
  | Some c => f c
  | None => default_label
  end <> default_label <->
  any_in (keywords t) q = true.
Proof.
  intros Hnames. destruct (first_category t q) as [c|] eqn:E.
  - split.
    + intros _. destruct (any_in (keywords t) q) eqn:Ea; [reflexivity|].
      apply first_category_None in Ea. congruence.
    + intros _ Heq. apply first_category_Some in E as (kws & Hin & _).
      apply (in_map fst) in Hin.
      pose proof (forallb_In _ _ c Hnames Hin) as Hc. simpl in Hc.
      apply negb_true_iff, String.eqb_neq in Hc. contradiction.
  - split; [intros H; contradiction|].
    apply first_category_None in E. congruence.
Qed.

(** X16: what a query triggers, every longer query around it triggers: a table
    request stays a table request, and an extractor that leaves its default
    on the query leaves it on the longer one (the category may change). *)
Theorem matches_survive_context (query pre post : string) :
  (contains_table_request query = true ->
   contains_table_request (pre +:+ query +:+ post) = true) /\
  (extract_spiritual_concept query <> "general" ->
   extract_spiritual_concept (pre +:+ query +:+ post) <> "general") /\
  (extract_life_problem query <> "guidance" ->
   extract_life_problem (pre +:+ query +:+ post) <> "guidance") /\
  (extract_scripture_source query <> "Hindu scriptures" ->
   extract_scripture_source (pre +:+ query +:+ post) <> "Hindu scriptures").
Proof.
  unfold contains_table_request, extract_spiritual_concept,
    extract_life_problem, extract_scripture_source.
  split; [apply any_in_context|].
  split; [|split].
  - rewrite !(extractor_default concepts (fun c => c) "general" _ eq_refl).
    apply any_in_context.
  - rewrite !(extractor_default problems (fun c => c) "guidance" _ eq_refl).
    apply any_in_context.
  - rewrite !(extractor_default sources format_source "Hindu scriptures" _
                eq_refl).
    apply any_in_context.
Qed.

(** ** Suggestions, further *)

(** X17: [clean_suggestions] commutes with the updates of a dict: setting a key
    before cleaning is setting it to the cleaned value after, deleting a key
    commutes, the number of items is kept and the empty dict stays empty. *)
Theorem clean_suggestions_updates (suggestions : gmap string value)
    (key : string) (v : value) :
  clean_suggestions (<[key := v]> suggestions)
  = <[key := clean_value v]> (clean_suggestions suggestions) /\
  clean_suggestions (delete key suggestions)
  = delete key (clean_suggestions suggestions) /\
  size (clean_suggestions suggestions) = size suggestions /\
  clean_suggestions ∅ = ∅.
Proof.
  rewrite !clean_suggestions_fmap.
  split; [apply fmap_insert|]. split; [apply fmap_delete|].
  split; [apply map_size_fmap | apply fmap_empty].
Qed.

(** * The cleaner applied twice, in full *)

(** ** Where a pattern matches nowhere *)

Lemma found_false_unchanged (m : matcher) (s : string) :
  forall bol, found m bol s = false -> sub_from m 0 bol s = s.
Proof.
  induction s as [|c s IH]; intros bol H; [reflexivity|].
  simpl in *. destruct (m bol (String c s)); [discriminate|].
  rewrite (IH _ H). reflexivity.
Qed.

Lemma re_search_false_unchanged (m : matcher) (s : string) :
  re_search m s = false -> re_sub m s = s.
Proof. apply found_false_unchanged. Qed.

Lemma found_literal (old new : string) (s : string) :
  forall bol, found (m_literal old new) bol s = contains old s.
Proof.
  induction s as [|c s IH]; intros bol; simpl; unfold m_literal.
  - destruct (startswith old EmptyString); reflexivity.
  - destruct (startswith old (String c s)); [reflexivity|]. apply IH.
Qed.

Lemma found_contains (m : matcher) (k : string) :
  (forall bol t n r, m bol t = Some (n, r) -> contains k t = true) ->
  forall s bol, found m bol s = true -> contains k s = true.
Proof.
  intros Hm. induction s as [|c s IH]; intros bol H; simpl in H.
  - destruct (m bol EmptyString) as [[n r]|] eqn:E; [|discriminate].
    apply (Hm _ _ _ _ E).
  - destruct (m bol (String c s)) as [[n r]|] eqn:E.
    + apply (Hm _ _ _ _ E).
    + simpl. rewrite (IH _ H). apply orb_true_r.
Qed.

Lemma contains_startswith (k s : string) :
  startswith k s = true -> contains k s = true.
Proof. intros H. destruct s; simpl; rewrite H; reflexivity. Qed.

Lemma contains_drop (k : string) (n : nat) (s : string) :
  contains k (drop n s) = true -> contains k s = true.
Proof.
  revert s. induction n as [|n IH]; intros s H; [destruct s; exact H|].
  destruct s as [|c s]; [exact H|]. simpl in H. simpl.
  rewrite (IH s H). apply orb_true_r.
Qed.

Lemma contains_longer (k ext s : string) :
  contains k s = false -> contains (k +:+ ext) s = false.
Proof.
  intros H. destruct (contains (k +:+ ext) s) eqn:E; [|reflexivity].
  apply contains_spec in E.
  apply (occurs_in_shorter k ext), contains_spec in E. congruence.
Qed.

Lemma m_bullet_Some (bol : bool) (t : string) (n : nat) (r : string) :
  m_bullet bol t = Some (n, r) -> contains "***" t = true.
Proof.
  unfold m_bullet. destruct t as [|a [|b [|c [|d t]]]]; try discriminate.
  destruct (is_star a) eqn:Ea, (is_star b) eqn:Eb, (is_star c) eqn:Ec;
    rewrite ?andb_false_r; simpl; try discriminate.
  intros _. apply is_star_eq in Ea, Eb, Ec. subst a b c. reflexivity.
Qed.

Lemma m_bold_extra_star_three (bol : bool) (t : string) (n : nat)
    (r : string) :
  m_bold_extra_star bol t = Some (n, r) -> contains "***" t = true.
Proof.
  unfold m_bold_extra_star. destruct (startswith "**" t); [|discriminate].
  cbv zeta. destruct (Nat.leb 1 _); cbn [andb]; [|discriminate].
  destruct (startswith "***" _) eqn:E; [|discriminate]. intros _.
  apply contains_startswith in E. apply contains_drop in E.
  apply (contains_drop "***" 2). exact E.
Qed.

(** A text in the shape of a result, without three asterisks in a row and
    without two pairs of asterisks that only whitespace separates, passes
    every rule unchanged. *)
Lemma clean_fixed (y : string) :
  pairs_ok line_pair newline y ->
  pairs_ok blank_pair newline y ->
  all_chars not_tab y ->
  pairs_ok dot_upper newline y ->
  rstrip y = y ->
  contains "***" y = false ->
  re_search m_empty_bold y = false ->
  clean_response_text y = y.
Proof.
  intros Hline Hblank Htab Hdot Hr H3 Hbold.
  destruct y as [|c0 y0]; [reflexivity|].
  unfold clean_response_text. simpl is_empty. cbv iota zeta.
  set (y := String c0 y0) in *.
  assert (Hrep : forall ext new,
            replace ("***" +:+ ext) new y = y).
  { intros ext new. unfold replace. simpl is_empty. cbv iota.
    apply re_search_false_unchanged. unfold re_search.
    rewrite found_literal. apply contains_longer, H3. }
  rewrite (Hrep "" "**" : replace "***" "**" y = y).
  rewrite (Hrep "*" "**" : replace "****" "**" y = y).
  rewrite (Hrep "**" "**" : replace "*****" "**" y = y).
  assert (Hbullet : re_sub m_bullet y = y).
  { apply re_search_false_unchanged.
    destruct (re_search m_bullet y) eqn:E; [|reflexivity].
    apply (found_contains m_bullet "***" m_bullet_Some) in E. congruence. }
  rewrite Hbullet.
  rewrite (blank_lines_unchanged _ Hline).
  rewrite (blanks_unchanged _ Hblank Htab).
  rewrite (leading_ws_unchanged _ Hline).
  rewrite (re_search_false_unchanged _ _ Hbold).
  assert (Hextra : re_sub m_bold_extra_star y = y).
  { apply re_search_false_unchanged.
    destruct (re_search m_bold_extra_star y) eqn:E; [|reflexivity].
    apply (found_contains m_bold_extra_star "***" m_bold_extra_star_three)
      in E. congruence. }
  rewrite Hextra.
  rewrite (sentence_unchanged _ Hdot).
  apply strip_tight; assumption.
Qed.

(** ** Resuming the scan after a match *)

Lemma take_drop (n : nat) (s : string) : take n s +:+ drop n s = s.
Proof.
  revert s. induction n as [|n IH]; intros [|c s]; simpl; try reflexivity.
  rewrite IH. reflexivity.
Qed.

Lemma drop_length (n : nat) (s : string) :
  String.length (drop n s) <= String.length s.
Proof.
  revert s. induction n as [|n IH]; intros [|c s]; simpl; try lia.
  specialize (IH s). lia.
Qed.

Lemma sub_from_skip (m : matcher) (k : nat) :
  forall bol s,
    sub_from m k bol s = sub_from m 0 (bol_after k bol s) (drop k s).
Proof.
  induction k as [|k IH]; intros bol [|c s]; simpl; try reflexivity.
  apply IH.
Qed.

Section Scan.

Variable m : matcher.
Hypothesis m_advances : forall bol t n r, m bol t = Some (n, r) -> 1 <= n.

Lemma sub_from_match (bol : bool) (c : ascii) (s : string) (n : nat)
    (r : string) :
  m bol (String c s) = Some (n, r) ->
  sub_from m 0 bol (String c s)
  = r +:+ sub_from m 0 (bol_after n bol (String c s)) (drop n (String c s)).
Proof.
  intros E. pose proof (m_advances _ _ _ _ E) as Hn.
  simpl sub_from. rewrite E. destruct n as [|n]; [lia|].
  simpl pred. rewrite sub_from_skip. reflexivity.
Qed.

(** A property of a text and of its image holds for every text when it is
    kept by a copied character and by a replaced match. *)
Lemma sub_from_scan (P : bool -> string -> string -> Prop) :
  (forall bol, P bol EmptyString EmptyString) ->
  (forall bol c s o, m bol (String c s) = None ->
     P (is_newline c) s o -> P bol (String c s) (String c o)) ->
  (forall bol t n r o, m bol t = Some (n, r) -> t <> EmptyString ->
     P (bol_after n bol t) (drop n t) o -> P bol t (r +:+ o)) ->
  forall s bol, P bol s (sub_from m 0 bol s).
Proof.
  intros Hnil Hcopy Hmatch s.
  assert (H : forall k s, String.length s <= k ->
                forall bol, P bol s (sub_from m 0 bol s)).
  { clear s. induction k as [|k IH]; intros [|c s] Hlen bol;
      try apply Hnil; simpl in Hlen; [lia|].
    destruct (m bol (String c s)) as [[n r]|] eqn:E.
    - rewrite (sub_from_match _ _ _ _ _ E).
      apply (Hmatch _ _ _ _ _ E); [discriminate|].
      apply IH. pose proof (m_advances _ _ _ _ E) as Hn.
      destruct n as [|n]; [lia|]. simpl drop.
      pose proof (drop_length n s). lia.
    - simpl sub_from. rewrite E. apply (Hcopy _ _ _ _ E), IH. lia. }
  apply (H (String.length s)). lia.
Qed.

End Scan.

(** ** Counting asterisks *)

Lemma count_stars_app (a b : string) :
  count_stars (a +:+ b) = count_stars a + count_stars b.
Proof.
  induction a as [|c a IH]; simpl; [reflexivity|].
  destruct (is_star c); rewrite IH; reflexivity.
Qed.

Lemma count_stars_split (n : nat) (s : string) :
  count_stars s = count_stars (take n s) + count_stars (drop n s).
Proof. rewrite <- count_stars_app, take_drop. reflexivity. Qed.

Section Counting.

Variable m : matcher.
Hypothesis m_advances : forall bol t n r, m bol t = Some (n, r) -> 1 <= n.
Hypothesis m_no_more : forall bol t n r,
  m bol t = Some (n, r) -> count_stars r <= count_stars (take n t).

(** A substitution whose replacements hold no more asterisks than what they
    replace does not raise the number of asterisks. *)
Lemma sub_from_count_stars (s : string) (bol : bool) :
  count_stars (sub_from m 0 bol s) <= count_stars s.
Proof.
  revert s bol.
  apply (sub_from_scan m m_advances
           (fun _ s o => count_stars o <= count_stars s)).
  - intros _. simpl. lia.
  - intros bol c s o _ H. simpl. destruct (is_star c); lia.
  - intros bol t n r o E _ H. rewrite count_stars_app.
    rewrite (count_stars_split n t). pose proof (m_no_more _ _ _ _ E). lia.
Qed.

Hypothesis m_fewer : forall bol t n r,
  m bol t = Some (n, r) -> count_stars r < count_stars (take n t).

(** When every replacement holds fewer asterisks than what it replaces, one
    match is enough for the number of asterisks to fall. *)
Lemma sub_from_count_stars_lt (s : string) (bol : bool) :
  found m bol s = true ->
  count_stars (sub_from m 0 bol s) < count_stars s.
Proof.
  revert s bol.
  enough (H : forall s bol,
            count_stars (sub_from m 0 bol s) <= count_stars s /\
            (found m bol s = true ->
             count_stars (sub_from m 0 bol s) < count_stars s))
    by (intros s bol; apply H).
  apply (sub_from_scan m m_advances
           (fun bol s o => count_stars o <= count_stars s /\
                           (found m bol s = true ->
                            count_stars o < count_stars s))).
  - intros bol. split; [simpl; lia|]. intros H. simpl in H.
    destruct (m bol EmptyString) as [[n r]|] eqn:E; [|discriminate].
    pose proof (m_fewer _ _ _ _ E) as Hlt. destruct n; simpl in Hlt; lia.
  - intros bol c s o E [IH1 IH2]. split.
    + simpl. destruct (is_star c); lia.
    + intros H. simpl in H. rewrite E in H.
      specialize (IH2 H). simpl. destruct (is_star c); lia.
  - intros bol t n r o E _ [IH1 _].
    pose proof (m_fewer _ _ _ _ E) as Hlt.
    rewrite count_stars_app, (count_stars_split n t). lia.
Qed.

End Counting.

(** ** No rule adds an asterisk *)

Lemma take_app_length (k post : string) :
  take (String.length k) (k +:+ post) = k.
Proof.
  induction k as [|c k IH]; simpl; [destruct post; reflexivity|].
  rewrite IH. reflexivity.
Qed.

Lemma startswith_take (k t : string) :
  startswith k t = true -> take (String.length k) t = k.
Proof.
  intros H. apply startswith_spec in H as [post ->]. apply take_app_length.
Qed.

Lemma take_add (a b : nat) (s : string) :
  take (a + b) s = take a s +:+ take b (drop a s).
Proof.
  revert s. induction a as [|a IH]; intros [|c s]; simpl; try reflexivity.
  - destruct b; reflexivity.
  - rewrite IH. reflexivity.
Qed.

Lemma m_literal_Some (old new : string) (bol : bool) (t : string) (n : nat)
    (r : string) :
  m_literal old new bol t = Some (n, r) ->
  n = String.length old /\ r = new /\ take n t = old.
Proof.
  unfold m_literal. destruct (startswith old t) eqn:E; [|discriminate].
  intros [= <- <-]. split_all; try reflexivity. apply startswith_take, E.
Qed.

Lemma replace_count_stars (old new s : string) :
  1 <= String.length old -> count_stars new <= count_stars old ->
  count_stars (replace old new s) <= count_stars s.
Proof.
  intros Hlen Hcount. unfold replace.
  destruct old as [|c old]; [simpl in Hlen; lia|]. simpl is_empty. cbv iota.
  apply sub_from_count_stars.
  - intros bol t n r E. apply m_literal_Some in E as (-> & _ & _).
    exact Hlen.
  - intros bol t n r E. apply m_literal_Some in E as (_ & -> & ->).
    exact Hcount.
Qed.

Lemma replace_count_stars_lt (old new s : string) :
  1 <= String.length old -> count_stars new < count_stars old ->
  contains old s = true ->
  count_stars (replace old new s) < count_stars s.
Proof.
  intros Hlen Hcount Hs. unfold replace.
  destruct old as [|c old]; [simpl in Hlen; lia|]. simpl is_empty. cbv iota.
  apply sub_from_count_stars_lt.
  - intros bol t n r E. apply m_literal_Some in E as (-> & _ & _).
    exact Hlen.
  - intros bol t n r E. apply m_literal_Some in E as (_ & -> & ->).
    exact Hcount.
  - rewrite found_literal. exact Hs.
Qed.

Lemma bullet_count_stars (s : string) :
  count_stars (re_sub m_bullet s) <= count_stars s.
Proof.
  apply sub_from_count_stars; intros bol t n r; unfold m_bullet;
    destruct t as [|a [|b [|c [|d t]]]]; try discriminate;
    destruct (_ && negb (is_star d)) eqn:E; try discriminate;
    intros [= <- <-]; [lia|].
  apply andb_true_iff in E as [_ E]. apply negb_true_iff in E.
  change (count_stars (String _ (String _ (String _ (String _ (String d _))))))
    with (count_stars (String d EmptyString)).
  simpl count_stars at 1. rewrite E. lia.
Qed.

Lemma blank_lines_count_stars (s : string) :
  count_stars (re_sub m_blank_lines s) <= count_stars s.
Proof.
  apply sub_from_count_stars; intros bol t n r; unfold m_blank_lines;
    destruct t as [|c t]; try discriminate;
    destruct (_ && _); try discriminate; intros [= <- <-];
    [lia | apply Nat.le_0_l].
Qed.

Lemma blanks_count_stars (s : string) :
  count_stars (re_sub m_blanks s) <= count_stars s.
Proof.
  apply sub_from_count_stars; intros bol t n r; unfold m_blanks;
    destruct (span_len is_blank t); try discriminate; intros [= <- <-];
    [lia | apply Nat.le_0_l].
Qed.

Lemma leading_ws_count_stars (s : string) :
  count_stars (re_sub m_leading_ws s) <= count_stars s.
Proof.
  apply sub_from_count_stars; intros bol t n r; unfold m_leading_ws;
    destruct bol; try discriminate;
    destruct (span_len isspace t); try discriminate; intros [= <- <-];
    [lia | apply Nat.le_0_l].
Qed.

Lemma count_stars_pair (s : string) :
  count_stars (String star (String star s)) = 2 + count_stars s.
Proof. reflexivity. Qed.

Lemma m_empty_bold_count (bol : bool) (t : string) (n : nat) (r : string) :
  m_empty_bold bol t = Some (n, r) ->
  1 <= n /\ count_stars r < count_stars (take n t).
Proof.
  unfold m_empty_bold. destruct (startswith "**" t) eqn:E; [|discriminate].
  apply startswith_spec in E as [t' ->]. cbv zeta.
  change (drop 2 ("**" +:+ t')) with t'.
  destruct (startswith "**" (drop _ t')) eqn:E2; [|discriminate].
  intros [= <- <-]. split; [lia|].
  change ("**" +:+ t') with (String star (String star t')).
  cbn [take Nat.add]. rewrite take_add. change 2 with (String.length "**") at 1.
  rewrite (startswith_take _ _ E2).
  rewrite !count_stars_pair, !count_stars_app, !count_stars_pair.
  change (count_stars EmptyString) with 0. lia.
Qed.

Lemma empty_bold_count_stars (s : string) :
  count_stars (re_sub m_empty_bold s) <= count_stars s.
Proof.
  apply sub_from_count_stars; intros bol t n r E;
    apply m_empty_bold_count in E; lia.
Qed.

Lemma empty_bold_count_stars_lt (s : string) :
  re_search m_empty_bold s = true ->
  count_stars (re_sub m_empty_bold s) < count_stars s.
Proof.
  apply sub_from_count_stars_lt; intros bol t n r E;
    apply m_empty_bold_count in E; lia.
Qed.

Lemma m_bold_extra_star_count (bol : bool) (t : string) (n : nat)
    (r : string) :
  m_bold_extra_star bol t = Some (n, r) ->
  1 <= n /\ count_stars r <= count_stars (take n t).
Proof.
  unfold m_bold_extra_star.
  destruct (startswith "**" t) eqn:E; [|discriminate].
  apply startswith_spec in E as [t' ->]. cbv zeta.
  change (drop 2 ("**" +:+ t')) with t'.
  set (k := span_len _ t').
  destruct (Nat.leb 1 k); cbn [andb]; [|discriminate].
  destruct (startswith "***" (drop k t')) eqn:E2; [|discriminate].
  intros [= <- <-]. split; [lia|].
  change ("**" +:+ t') with (String star (String star t')).
  cbn [take Nat.add]. rewrite take_add. change 3 with (String.length "***") at 1.
  rewrite (startswith_take _ _ E2).
  change ("**" +:+ ?u) with (String star (String star u)).
  rewrite !count_stars_pair, !count_stars_app, !count_stars_pair.
  change (count_stars "***") with 3. change (count_stars EmptyString) with 0.
  lia.
Qed.

Lemma bold_extra_star_count_stars (s : string) :
  count_stars (re_sub m_bold_extra_star s) <= count_stars s.
Proof.
  apply sub_from_count_stars; intros bol t n r E;
    apply m_bold_extra_star_count in E; lia.
Qed.

Lemma sentence_count_stars (s : string) :
  count_stars (re_sub m_sentence s) <= count_stars s.
Proof.
  apply sub_from_count_stars; intros bol t n r E;
    apply m_sentence_Some in E as (b & t' & -> & Hb & -> & ->); [lia|].
  apply isupper_plain in Hb as (Hb & _).
  simpl. rewrite Hb. change (is_star dot) with false.
  change (is_star space) with false. cbv iota. lia.
Qed.

Lemma lstrip_count_stars (s : string) :
  count_stars (lstrip s) <= count_stars s.
Proof.
  induction s as [|c s IH]; simpl; [lia|].
  destruct (isspace c); simpl; destruct (is_star c); lia.
Qed.

Lemma rstrip_count_stars (s : string) :
  count_stars (rstrip s) <= count_stars s.
Proof.
  induction s as [|c s IH]; simpl; [lia|].
  destruct (isspace c && is_empty (rstrip s)); simpl;
    destruct (is_star c); lia.
Qed.

Lemma strip_count_stars (s : string) :
  count_stars (strip s) <= count_stars s.
Proof.
  unfold strip. pose proof (rstrip_count_stars (lstrip s)).
  pose proof (lstrip_count_stars s). lia.
Qed.

(** The text that reaches the rules on bold markers, when the input has the
    whitespace of a result and no three asterisks in a row: the input. *)
Lemma clean_from_bold_rules (y : string) :
  pairs_ok line_pair newline y ->
  pairs_ok blank_pair newline y ->
  all_chars not_tab y ->
  contains "***" y = false ->
  clean_response_text y
  = if is_empty y then y
    else strip (re_sub m_sentence
                  (re_sub m_bold_extra_star (re_sub m_empty_bold y))).
Proof.
  intros Hline Hblank Htab H3.
  destruct y as [|c0 y0]; [reflexivity|].
  unfold clean_response_text. simpl is_empty. cbv iota zeta.
  set (y := String c0 y0) in *.
  assert (Hrep : forall ext new,
            replace ("***" +:+ ext) new y = y).
  { intros ext new. unfold replace. simpl is_empty. cbv iota.
    apply re_search_false_unchanged. unfold re_search.
    rewrite found_literal. apply contains_longer, H3. }
  rewrite (Hrep "" "**" : replace "***" "**" y = y).
  rewrite (Hrep "*" "**" : replace "****" "**" y = y).
  rewrite (Hrep "**" "**" : replace "*****" "**" y = y).
  assert (Hbullet : re_sub m_bullet y = y).
  { apply re_search_false_unchanged.
    destruct (re_search m_bullet y) eqn:E; [|reflexivity].
    apply (found_contains m_bullet "***" m_bullet_Some) in E. congruence. }
  rewrite Hbullet.
  rewrite (blank_lines_unchanged _ Hline).
  rewrite (blanks_unchanged _ Hblank Htab).
  rewrite (leading_ws_unchanged _ Hline).
  reflexivity.
Qed.

Ltac count_stars_step :=
  match goal with
  | |- count_stars (strip ?t) <= _ =>
      apply (Nat.le_trans _ _ _ (strip_count_stars t))
  | |- count_stars (re_sub m_sentence ?t) <= _ =>
      apply (Nat.le_trans _ _ _ (sentence_count_stars t))
  | |- count_stars (re_sub m_bold_extra_star ?t) <= _ =>
      apply (Nat.le_trans _ _ _ (bold_extra_star_count_stars t))
  | |- count_stars (re_sub m_empty_bold ?t) <= _ =>
      apply (Nat.le_trans _ _ _ (empty_bold_count_stars t))
  | |- count_stars (re_sub m_leading_ws ?t) <= _ =>
      apply (Nat.le_trans _ _ _ (leading_ws_count_stars t))
  | |- count_stars (re_sub m_blanks ?t) <= _ =>
      apply (Nat.le_trans _ _ _ (blanks_count_stars t))
  | |- count_stars (re_sub m_blank_lines ?t) <= _ =>
      apply (Nat.le_trans _ _ _ (blank_lines_count_stars t))
  | |- count_stars (re_sub m_bullet ?t) <= _ =>
      apply (Nat.le_trans _ _ _ (bullet_count_stars t))
  | |- count_stars (replace ?o ?n ?t) <= _ =>
      apply (Nat.le_trans _ _ _
               (replace_count_stars o n t ltac:(simpl; lia)
                  ltac:(vm_compute; lia)))
  end.

Ltac count_stars_chain :=
  repeat first [apply Nat.le_refl | count_stars_step].

(** Cleaning never adds an asterisk. *)
Lemma clean_count_stars (x : string) :
  count_stars (clean_response_text x) <= count_stars x.
Proof.
  unfold clean_response_text. destruct (is_empty x); [lia|]. cbv zeta.
  count_stars_chain.
Qed.

(** Cleaning a text that has the whitespace of a result removes an asterisk
    when the text holds three asterisks in a row, or two pairs of asterisks
    that only whitespace separates. *)
Lemma clean_loses_stars (y : string) :
  pairs_ok line_pair newline y ->
  pairs_ok blank_pair newline y ->
  all_chars not_tab y ->
  contains "***" y = true \/ re_search m_empty_bold y = true ->
  count_stars (clean_response_text y) < count_stars y.
Proof.
  intros Hline Hblank Htab H.
  destruct (contains "***" y) eqn:H3.
  - clear H. destruct y as [|c0 y0]; [discriminate H3|].
    unfold clean_response_text. simpl is_empty. cbv iota zeta.
    set (y := String c0 y0) in *.
    apply (Nat.le_lt_trans _ (count_stars (replace "***" "**" y))).
    + count_stars_chain.
    + apply replace_count_stars_lt; [simpl; lia | vm_compute; lia | exact H3].
  - destruct H as [H | H]; [discriminate H|].
    rewrite (clean_from_bold_rules y Hline Hblank Htab H3).
    destruct y as [|c0 y0]; [discriminate H|]. simpl is_empty. cbv iota.
    set (y := String c0 y0) in *.
    apply (Nat.le_lt_trans _ (count_stars (re_sub m_empty_bold y))).
    + count_stars_chain.
    + apply empty_bold_count_stars_lt, H.
Qed.

(** ** Reading the asterisks of a text *)

Lemma bold_run_app (a b : string) :
  forall q,
    bold_run q (a +:+ b)
    = match bold_run q a with
      | Some q' => bold_run q' b
      | None => None
      end.
Proof.
  induction a as [|c a IH]; intros q; simpl; [reflexivity|].
  destruct (bold_step q c); [apply IH | reflexivity].
Qed.

Lemma isspace_not_star (c : ascii) : isspace c = true -> is_star c = false.
Proof.
  intros H. destruct (is_star c) eqn:E; [|reflexivity].
  apply is_star_eq in E. subst c. discriminate H.
Qed.

Lemma bold_step_space (q : bold_state) (c : ascii) :
  isspace c = true -> bold_step q c = Some (after_space q).
Proof.
  intros H. unfold bold_step. rewrite (isspace_not_star c H), H.
  destruct q; reflexivity.
Qed.

Lemma after_space_settled (q : bold_state) : settled (after_space q).
Proof. destruct q; reflexivity. Qed.

Lemma bold_run_spaces_settled (w : string) (q : bold_state) :
  all_chars isspace w -> settled q -> bold_run q w = Some q.
Proof.
  intros Hw Hq. induction w as [|c w IH]; [reflexivity|].
  destruct Hw as [Hc Hw]. simpl. rewrite (bold_step_space q c Hc), Hq.
  apply IH, Hw.
Qed.

Lemma bold_run_spaces (w : string) (q : bold_state) :
  all_chars isspace w -> w <> EmptyString ->
  bold_run q w = Some (after_space q).
Proof.
  intros Hw Hne. destruct w as [|c w]; [congruence|].
  destruct Hw as [Hc Hw]. simpl. rewrite (bold_step_space q c Hc).
  apply bold_run_spaces_settled; [exact Hw | apply after_space_settled].
Qed.

Lemma bold_step_newline (q q' : bold_state) (c : ascii) :
  bold_step q c = Some q' -> is_newline c = true -> settled q'.
Proof.
  intros H Hc. apply is_newline_eq in Hc. subst c.
  rewrite (bold_step_space q newline eq_refl) in H. injection H as <-.
  apply after_space_settled.
Qed.

Lemma bol_after_settled (n : nat) :
  forall s bol q q',
    (bol = true -> settled q) ->
    bold_run q (take n s) = Some q' ->
    bol_after n bol s = true -> settled q'.
Proof.
  induction n as [|n IH]; intros [|c s] bol q q' Hq Hrun Hbol; simpl in *;
    try (injection Hrun as <-; apply Hq, Hbol).
  destruct (bold_step q c) as [q1|] eqn:E; [|discriminate].
  apply (IH s (is_newline c) q1 q'); try assumption.
  apply (bold_step_newline _ _ _ E).
Qed.

Section Reading.

Variable m : matcher.
Hypothesis m_advances : forall bol t n r, m bol t = Some (n, r) -> 1 <= n.
Hypothesis m_same_state : forall bol t n r q q',
  m bol t = Some (n, r) -> (bol = true -> settled q) ->
  bold_run q (take n t) = Some q' -> bold_run q r = Some q'.

(** A substitution whose replacements leave the reader where the replaced
    text left it does not change where the whole text leaves it. *)
Lemma sub_from_bold_run (s : string) (bol : bool) :
  forall q qf,
    (bol = true -> settled q) ->
    bold_run q s = Some qf -> bold_run q (sub_from m 0 bol s) = Some qf.
Proof.
  revert s bol.
  apply (sub_from_scan m m_advances
           (fun bol s o => forall q qf,
              (bol = true -> settled q) ->
              bold_run q s = Some qf -> bold_run q o = Some qf)).
  - intros bol q qf _ H. exact H.
  - intros bol c s o _ IH q qf Hq H. simpl in *.
    destruct (bold_step q c) as [q1|] eqn:E; [|discriminate].
    apply IH; [apply (bold_step_newline _ _ _ E) | exact H].
  - intros bol t n r o E _ IH q qf Hq H.
    rewrite <- (take_drop n t), bold_run_app in H.
    destruct (bold_run q (take n t)) as [q1|] eqn:E1; [|discriminate].
    rewrite bold_run_app, (m_same_state _ _ _ _ _ _ E Hq E1).
    apply IH; [|exact H].
    apply (bol_after_settled n t bol q q1 Hq E1).
Qed.

Lemma re_sub_bold_run (s : string) (qf : bold_state) :
  bold_run Plain s = Some qf -> bold_run Plain (re_sub m s) = Some qf.
Proof. apply sub_from_bold_run. reflexivity. Qed.

End Reading.

Lemma all_chars_span (p : ascii -> bool) (s : string) :
  all_chars p (take (span_len p s) s).
Proof.
  induction s as [|c s IH]; simpl; [exact I|].
  destruct (p c) eqn:E; simpl; auto.
Qed.

Lemma all_chars_impl (P Q : ascii -> bool) (s : string) :
  (forall c, P c = true -> Q c = true) -> all_chars P s -> all_chars Q s.
Proof.
  intros H. induction s as [|c s IH]; simpl; [auto|].
  intros [Hc Hs]. auto.
Qed.

Lemma is_blank_isspace (c : ascii) : is_blank c = true -> isspace c = true.
Proof.
  unfold is_blank. rewrite orb_true_iff, !Ascii.eqb_eq.
  intros [-> | ->]; reflexivity.
Qed.

Lemma ws_last_newline_spaces (s : string) :
  all_chars isspace (take (ws_last_newline s) s).
Proof.
  induction s as [|c s IH]; simpl; [exact I|].
  destruct (isspace c) eqn:Ec; [|exact I].
  destruct (is_newline c || _); simpl; auto.
Qed.

Lemma take_not_empty (n : nat) (c : ascii) (s : string) :
  1 <= n -> take n (String c s) <> EmptyString.
Proof. destruct n; [lia | discriminate]. Qed.

Lemma blank_lines_bold_run (s : string) (qf : bold_state) :
  bold_run Plain s = Some qf ->
  bold_run Plain (re_sub m_blank_lines s) = Some qf.
Proof.
  apply re_sub_bold_run.
  - intros bol t n r. unfold m_blank_lines. destruct t as [|c t];
      [discriminate|]. destruct (_ && _); [|discriminate].
    intros [= <- <-]. lia.
  - intros bol t n r q q' E _ H.
    unfold m_blank_lines in E. destruct t as [|c t]; [discriminate|].
    destruct (is_newline c) eqn:Ec; cbn [andb] in E; [|discriminate].
    destruct (Nat.leb 2 (ws_newlines t)); [|discriminate E].
    injection E as <- <-.
    apply is_newline_eq in Ec. subst c.
    rewrite bold_run_spaces in H.
    + rewrite <- H. apply bold_run_spaces; [|discriminate].
      simpl. auto.
    + simpl. split; [reflexivity | apply ws_last_newline_spaces].
    + discriminate.
Qed.

Lemma blanks_bold_run (s : string) (qf : bold_state) :
  bold_run Plain s = Some qf ->
  bold_run Plain (re_sub m_blanks s) = Some qf.
Proof.
  assert (Hn : forall bol t n r, m_blanks bol t = Some (n, r) ->
                 1 <= n /\ n = span_len is_blank t /\ r = " ").
  { intros bol t n r. unfold m_blanks.
    destruct (span_len is_blank t) eqn:E; [discriminate|].
    intros [= <- <-]. split_all; auto; lia. }
  apply re_sub_bold_run.
  - intros bol t n r E. apply Hn in E. tauto.
  - intros bol t n r q q' E _ H. apply Hn in E as (Hpos & -> & ->).
    destruct t as [|c t]; [simpl in Hpos; lia|].
    rewrite bold_run_spaces in H.
    + rewrite <- H. apply bold_run_spaces; [|discriminate]. simpl. auto.
    + apply (all_chars_impl is_blank); [apply is_blank_isspace|].
      apply all_chars_span.
    + apply take_not_empty, Hpos.
Qed.

Lemma leading_ws_bold_run (s : string) (qf : bold_state) :
  bold_run Plain s = Some qf ->
  bold_run Plain (re_sub m_leading_ws s) = Some qf.
Proof.
  assert (Hn : forall bol t n r, m_leading_ws bol t = Some (n, r) ->
                 1 <= n /\ n = span_len isspace t /\ r = EmptyString /\
                 bol = true).
  { intros bol t n r. unfold m_leading_ws. destruct bol; [|discriminate].
    destruct (span_len isspace t) eqn:E; [discriminate|].
    intros [= <- <-]. split_all; auto; lia. }
  apply re_sub_bold_run.
  - intros bol t n r E. apply Hn in E. tauto.
  - intros bol t n r q q' E Hq H. apply Hn in E as (Hpos & -> & -> & ->).
    rewrite bold_run_spaces_settled in H;
      [exact H | apply all_chars_span | apply Hq; reflexivity].
Qed.

Lemma sentence_bold_run (s : string) (qf : bold_state) :
  bold_run Plain s = Some qf ->
  bold_run Plain (re_sub m_sentence s) = Some qf.
Proof.
  apply re_sub_bold_run.
  - intros bol t n r E.
    apply m_sentence_Some in E as (b & t' & _ & _ & -> & _). lia.
  - intros bol t n r q q' E _ H.
    apply m_sentence_Some in E as (b & t' & -> & Hb & -> & ->).
    apply isupper_plain in Hb as (Hstar & _ & Hsp & _).
    assert (Hb : forall q0, bold_step q0 b = Some Plain).
    { intros q0. unfold bold_step. rewrite Hstar, Hsp. reflexivity. }
    assert (Hdot : bold_step q dot = Some Plain) by (destruct q; reflexivity).
    change (take 2 (String dot (String b t')))
      with (String dot (String b EmptyString)) in H.
    cbn [bold_run] in *. rewrite Hdot in *.
    rewrite (bold_step_space Plain space eq_refl). cbn [after_space].
    rewrite Hb in *. exact H.
Qed.

Lemma lstrip_bold_run (s : string) :
  forall q qf, settled q ->
    bold_run q s = Some qf -> bold_run q (lstrip s) = Some qf.
Proof.
  induction s as [|c s IH]; intros q qf Hq H; [exact H|].
  simpl. destruct (isspace c) eqn:Ec; [|exact H].
  simpl in H. rewrite (bold_step_space q c Ec), Hq in H.
  apply IH; assumption.
Qed.

Lemma rstrip_bold_run (s : string) :
  forall q, bold_run q s <> None -> bold_run q (rstrip s) <> None.
Proof.
  induction s as [|c s IH]; intros q H; [exact H|].
  simpl. destruct (isspace c && is_empty (rstrip s)); [discriminate|].
  simpl in *. destruct (bold_step q c) as [q1|]; [|exact H].
  apply IH, H.
Qed.

(** ** What the reader rejects *)

Lemma found_app (m : matcher) (t : string) (p : string) :
  (forall bol, m bol t <> None) ->
  forall bol, found m bol (p +:+ t) = true.
Proof.
  intros Ht. induction p as [|c p IH]; intros bol.
  - change (EmptyString +:+ t) with t. specialize (Ht bol).
    destruct t; simpl; destruct (m bol _); congruence.
  - change (String c p +:+ t) with (String c (p +:+ t)). simpl.
    destruct (m bol _); [reflexivity | apply IH].
Qed.

Lemma span_len_stop (P : ascii -> bool) (w : string) (c : ascii)
    (u : string) :
  all_chars P w -> P c = false ->
  span_len P (w +:+ String c u) = String.length w.
Proof.
  intros Hw Hc. induction w as [|d w IH]; simpl; [rewrite Hc; reflexivity|].
  destruct Hw as [Hd Hw]. rewrite Hd, (IH Hw). reflexivity.
Qed.

Lemma drop_app_length (w u : string) : drop (String.length w) (w +:+ u) = u.
Proof.
  induction w as [|d w IH]; simpl; [destruct u; reflexivity | exact IH].
Qed.

Lemma m_empty_bold_matches (bol : bool) (w post : string) :
  all_chars isspace w ->
  m_empty_bold bol ("**" +:+ w +:+ "**" +:+ post) <> None.
Proof.
  intros Hw. unfold m_empty_bold.
  change ("**" +:+ w +:+ "**" +:+ post)
    with (String star (String star (w +:+ String star (String star post)))).
  change (startswith "**" (String star (String star ?u))) with true.
  cbv iota zeta.
  change (drop 2 (String star (String star ?u))) with u.
  rewrite (span_len_stop isspace w star _ Hw eq_refl), drop_app_length.
  change (startswith "**" (String star (String star post))) with true.
  discriminate.
Qed.

Lemma m_empty_bold_Some_shape (bol : bool) (t : string) (n : nat)
    (r : string) :
  m_empty_bold bol t = Some (n, r) ->
  exists w post, t = "**" +:+ w +:+ "**" +:+ post /\ all_chars isspace w.
Proof.
  unfold m_empty_bold. destruct (startswith "**" t) eqn:E; [|discriminate].
  apply startswith_spec in E as [t' ->]. cbv zeta.
  change (drop 2 ("**" +:+ t')) with t'.
  destruct (startswith "**" (drop _ t')) eqn:E2; [|discriminate].
  intros _. apply startswith_spec in E2 as [post E2].
  exists (take (span_len isspace t') t'), post. split.
  - rewrite <- E2, take_drop. reflexivity.
  - apply all_chars_span.
Qed.

Lemma bold_run_three_stars (t : string) (q : bold_state) :
  startswith "***" t = true -> bold_run q t = None.
Proof.
  intros H. apply startswith_spec in H as [post ->].
  destruct q; reflexivity.
Qed.

Lemma bold_run_empty_bold (bol : bool) (t : string) (n : nat) (r : string)
    (q : bold_state) :
  m_empty_bold bol t = Some (n, r) -> bold_run q t = None.
Proof.
  intros E. apply m_empty_bold_Some_shape in E as (w & post & -> & Hw).
  rewrite bold_run_app.
  assert (Hq : bold_run q "**" = Some Pair \/ bold_run q "**" = None)
    by (destruct q; auto).
  destruct Hq as [-> | ->]; [|reflexivity].
  rewrite bold_run_app.
  destruct w as [|c w].
  - reflexivity.
  - rewrite (bold_run_spaces _ Pair Hw); [reflexivity | discriminate].
Qed.

(** A text that the reader accepts holds no three asterisks in a row and no
    two pairs of asterisks that only whitespace separates. *)
Lemma bold_run_free (s : string) :
  forall q, bold_run q s <> None ->
    contains "***" s = false /\
    forall bol, found m_empty_bold bol s = false.
Proof.
  induction s as [|c s IH]; intros q H; [split; reflexivity|].
  assert (H3 : startswith "***" (String c s) = false).
  { destruct (startswith "***" (String c s)) eqn:E; [|reflexivity].
    rewrite (bold_run_three_stars _ q E) in H. congruence. }
  assert (Hm : forall bol, m_empty_bold bol (String c s) = None).
  { intros bol. destruct (m_empty_bold bol (String c s)) as [[n r]|] eqn:E;
      [|reflexivity].
    rewrite (bold_run_empty_bold _ _ _ _ q E) in H. congruence. }
  simpl in H. destruct (bold_step q c) as [q1|]; [|congruence].
  destruct (IH q1 H) as [IH3 IHm]. split.
  - change (contains "***" (String c s))
      with (startswith "***" (String c s) || contains "***" s).
    rewrite H3, IH3. reflexivity.
  - intros bol.
    change (found m_empty_bold bol (String c s))
      with (match m_empty_bold bol (String c s) with
            | Some _ => true
            | None => found m_empty_bold (is_newline c) s
            end).
    rewrite Hm. apply IHm.
Qed.

Lemma ends_as_step (q q1 : bold_state) (pre : string) (c : ascii) :
  ends_as q pre -> bold_step q c = Some q1 ->
  ends_as q1 (pre +:+ String c EmptyString).
Proof.
  unfold bold_step. destruct (is_star c) eqn:Ec.
  - apply is_star_eq in Ec. subst c.
    destruct q; cbn [ends_as]; intros Hq [= <-]; cbn [ends_as].
    + exists pre. reflexivity.
    + destruct Hq as [p ->]. exists p. rewrite append_assoc. reflexivity.
    + destruct Hq as (p & w & -> & Hw). exists p, w. split; [|exact Hw].
      rewrite append_assoc. reflexivity.
  - destruct (isspace c) eqn:Es.
    + destruct q; cbn [ends_as after_space]; intros Hq [= <-];
        cbn [ends_as]; try exact I.
      * destruct Hq as [p ->]. exists p, (String c EmptyString). split.
        -- rewrite append_assoc. reflexivity.
        -- simpl. auto.
      * destruct Hq as (p & w & -> & Hw).
        exists p, (w +:+ String c EmptyString). split.
        -- rewrite append_assoc. reflexivity.
        -- apply all_chars_app. simpl. auto.
    + intros _ [= <-]. exact I.
Qed.

Lemma bold_step_None (q : bold_state) (pre : string) (c : ascii)
    (rest : string) :
  ends_as q pre -> bold_step q c = None ->
  contains "***" (pre +:+ String c rest) = true \/
  re_search m_empty_bold (pre +:+ String c rest) = true.
Proof.
  unfold bold_step. destruct (is_star c) eqn:Ec.
  - apply is_star_eq in Ec. subst c.
    destruct q; cbn [ends_as]; intros Hq H; try discriminate H.
    + left. destruct Hq as [p ->]. apply contains_spec.
      exists p, rest. rewrite append_assoc. reflexivity.
    + right. destruct Hq as (p & w & -> & Hw).
      assert (Heq : (p +:+ "**" +:+ w +:+ "*") +:+ String star rest
                    = p +:+ ("**" +:+ w +:+ "**" +:+ rest)).
      { rewrite append_assoc.
        change (("**" +:+ w +:+ "*") +:+ String star rest)
          with (String star (String star ((w +:+ "*") +:+ String star rest))).
        rewrite append_assoc. reflexivity. }
      rewrite Heq. apply found_app. intros bol.
      apply m_empty_bold_matches, Hw.
  - destruct (isspace c); destruct q; discriminate.
Qed.

(** A text without three asterisks in a row and without two pairs of
    asterisks that only whitespace separates is accepted by the reader. *)
Lemma bold_run_total (rest : string) :
  forall pre q,
    ends_as q pre ->
    contains "***" (pre +:+ rest) = false ->
    re_search m_empty_bold (pre +:+ rest) = false ->
    bold_run q rest <> None.
Proof.
  induction rest as [|c rest IH]; intros pre q Hq H3 Hm; [discriminate|].
  simpl. destruct (bold_step q c) as [q1|] eqn:E.
  - apply (IH (pre +:+ String c EmptyString) q1).
    + apply (ends_as_step q q1 pre c Hq E).
    + rewrite append_assoc. exact H3.
    + rewrite append_assoc. exact Hm.
  - destruct (bold_step_None q pre c rest Hq E); congruence.
Qed.

Lemma bold_free_run (s : string) :
  contains "***" s = false -> re_search m_empty_bold s = false ->
  bold_run Plain s <> None.
Proof. apply (bold_run_total s EmptyString Plain I). Qed.

(** ** The cleaner keeps a text free of what it collapses *)

Lemma clean_keeps_bold_free (x : string) :
  contains "***" x = false -> re_search m_empty_bold x = false ->
  contains "***" (clean_response_text x) = false /\
  re_search m_empty_bold (clean_response_text x) = false.
Proof.
  intros H3 Hm. destruct x as [|c0 x0]; [split; reflexivity|].
  pose proof (bold_free_run _ H3 Hm) as Hrun.
  unfold clean_response_text. simpl is_empty. cbv iota zeta.
  set (x := String c0 x0) in *.
  assert (Hrep : forall ext new, replace ("***" +:+ ext) new x = x).
  { intros ext new. unfold replace. simpl is_empty. cbv iota.
    apply re_search_false_unchanged. unfold re_search.
    rewrite found_literal. apply contains_longer, H3. }
  rewrite (Hrep "" "**" : replace "***" "**" x = x).
  rewrite (Hrep "*" "**" : replace "****" "**" x = x).
  rewrite (Hrep "**" "**" : replace "*****" "**" x = x).
  assert (Hbullet : re_sub m_bullet x = x).
  { apply re_search_false_unchanged.
    destruct (re_search m_bullet x) eqn:E; [|reflexivity].
    apply (found_contains m_bullet "***" m_bullet_Some) in E. congruence. }
  rewrite Hbullet.
  destruct (bold_run Plain x) as [qf|] eqn:Ex; [clear Hrun | congruence].
  apply blank_lines_bold_run, blanks_bold_run, leading_ws_bold_run in Ex.
  set (w := re_sub m_leading_ws _) in *.
  assert (Hw : bold_run Plain w <> None) by congruence.
  apply bold_run_free in Hw as [Hw3 Hwm].
  rewrite (re_search_false_unchanged m_empty_bold w (Hwm true)).
  assert (Hextra : re_sub m_bold_extra_star w = w).
  { apply re_search_false_unchanged.
    destruct (re_search m_bold_extra_star w) eqn:E; [|reflexivity].
    apply (found_contains m_bold_extra_star "***" m_bold_extra_star_three)
      in E. congruence. }
  rewrite Hextra.
  apply sentence_bold_run in Ex.
  apply (lstrip_bold_run _ Plain qf eq_refl) in Ex.
  assert (Hr : bold_run Plain (strip (re_sub m_sentence w)) <> None).
  { unfold strip. apply rstrip_bold_run. congruence. }
  apply bold_run_free in Hr as [Hr3 Hrm]. split; [exact Hr3 | apply Hrm].
Qed.

(** ** Cleaning twice *)

(** Cleaning a result again changes nothing exactly when the result holds no
    three asterisks in a row and no two pairs of asterisks that only
    whitespace separates. *)
Lemma clean_twice_iff (x : string) :
  clean_response_text (clean_response_text x) = clean_response_text x <->
  contains "***" (clean_response_text x) = false /\
  re_search m_empty_bold (clean_response_text x) = false.
Proof.
  destruct (clean_response_text_shape x) as (Hb & Ht & Hl & Hd & Hr).
  split.
  - intros H.
    destruct (contains "***" (clean_response_text x)) eqn:H3;
      [|destruct (re_search m_empty_bold (clean_response_text x)) eqn:Hm;
        [|split; reflexivity]].
    + pose proof (clean_loses_stars _ Hl Hb Ht (or_introl H3)) as Hlt.
      rewrite H in Hlt. lia.
    + pose proof (clean_loses_stars _ Hl Hb Ht (or_intror Hm)) as Hlt.
      rewrite H in Hlt. lia.
  - intros [H3 Hm]. apply clean_fixed; assumption.
Qed.

Lemma clean_twice_bold_free (x : string) :
  contains "***" x = false -> re_search m_empty_bold x = false ->
  clean_response_text (clean_response_text x) = clean_response_text x.
Proof.
  intros H3 Hm. apply clean_twice_iff, clean_keeps_bold_free; assumption.
Qed.

(** C1: on a text without whitespace outside ASCII, cleaning twice is
    cleaning once whenever the text holds no three asterisks in a row and no
    two pairs of asterisks that only whitespace separates, the empty text
    and every text with well-formed bold markers included; and for any such
    text, cleaning twice is cleaning once exactly when the first result holds
    neither of the two. *)
Theorem clean_response_text_idempotent (x : string) :
  no_unicode_space x = true ->
  (contains "***" x = false -> re_search m_empty_bold x = false ->
   clean_response_text (clean_response_text x) = clean_response_text x) /\
  (clean_response_text (clean_response_text x) = clean_response_text x <->
   contains "***" (clean_response_text x) = false /\
   re_search m_empty_bold (clean_response_text x) = false).
Proof.
  intros _. split; [apply clean_twice_bold_free | apply clean_twice_iff].
Qed.

(** Bold markers around a word, and the empty text. *)
Lemma clean_response_text_idempotent_witness :
  clean_response_text "**Karma**  yoga.Act  " = "**Karma** yoga. Act" /\
  clean_response_text (clean_response_text "**Karma**  yoga.Act  ")
  = clean_response_text "**Karma**  yoga.Act  " /\
  clean_response_text (clean_response_text "") = clean_response_text "".
Proof.
  split; [reflexivity|]. split.
  - apply (proj1 (clean_response_text_idempotent
                    "**Karma**  yoga.Act  " eq_refl)); reflexivity.
  - apply (proj1 (clean_response_text_idempotent "" eq_refl)); reflexivity.
Defined.

(** X5: on a text without whitespace outside ASCII, the cleaner returns its
    input exactly when the input has the shape of a result: no three
    asterisks in a row, no two pairs of asterisks that only whitespace
    separates, no tab, no two adjacent spaces, no newline followed by
    whitespace, no period followed by an upper-case letter, and trimmed at
    both ends. *)
Theorem clean_response_text_fixed_point (x : string) :
  no_unicode_space x = true ->
  (clean_response_text x = x <->
   contains "***" x = false /\
   re_search m_empty_bold x = false /\
   has_char tab x = false /\
   contains "  " x = false /\
   (forall c, isspace c = true ->
      contains (String newline (String c EmptyString)) x = false) /\
   (forall c, isupper c = true ->
      contains (String dot (String c EmptyString)) x = false) /\
   strip x = x).
Proof.
  intros _. split.
  - intros H.
    destruct (clean_response_text_shape x) as (Hb & Ht & Hl & Hd & Hr).
    assert (H2 : clean_response_text (clean_response_text x)
                 = clean_response_text x) by (rewrite H; exact H).
    apply clean_twice_iff in H2 as [H3 Hm].
    rewrite H in *. split_all; try assumption.
    + apply not_tab_has_char, Ht.
    + apply (pairs_ok_contains blank_pair space space _ eq_refl newline Hb).
    + intros c Hc.
      apply (pairs_ok_contains line_pair newline c) with newline;
        [|exact Hl]. unfold line_pair. rewrite Hc. reflexivity.
    + intros c Hc.
      apply (pairs_ok_contains dot_upper dot c) with newline; [|exact Hd].
      unfold dot_upper. rewrite Hc. reflexivity.
    + apply strip_tight; assumption.
  - intros (H3 & Hm & Htab & Hsp & Hnl & Hdot & Hstrip).
    assert (Hhead : match x with
                    | EmptyString => True
                    | String c _ => isspace c = false
                    end).
    { destruct x as [|c x']; [exact I|].
      destruct (isspace c) eqn:Ec; [|reflexivity].
      unfold strip in Hstrip. simpl lstrip in Hstrip. rewrite Ec in Hstrip.
      assert (Hlen : forall s, String.length (rstrip s) <= String.length s).
      { clear. induction s as [|d s IH]; simpl; [lia|].
        destruct (isspace d && is_empty (rstrip s)); simpl; lia. }
      assert (Hlen' : forall s, String.length (lstrip s) <= String.length s).
      { clear. induction s as [|d s IH]; simpl; [lia|].
        destruct (isspace d); simpl; lia. }
      apply (f_equal String.length) in Hstrip. simpl in Hstrip.
      pose proof (Hlen (lstrip x')). pose proof (Hlen' x'). lia. }
    assert (Hline : pairs_ok line_pair newline x).
    { apply contains_pairs_ok.
      - intros a b Hab. unfold line_pair in Hab.
        apply andb_true_iff in Hab as [Ha Hb].
        apply is_newline_eq in Ha. subst a. apply Hnl, Hb.
      - destruct x; [exact I | exact Hhead]. }
    assert (Hr : rstrip x = x).
    { unfold strip in Hstrip. rewrite (lstrip_tight x Hline) in Hstrip.
      exact Hstrip. }
    assert (Ht : all_chars not_tab x) by (apply not_tab_has_char, Htab).
    assert (Hblank : pairs_ok blank_pair newline x).
    { apply contains_pairs_ok.
      - intros a b Hab. unfold blank_pair in Hab.
        apply andb_true_iff in Hab as [Ha Hb].
        destruct (contains (String a (String b EmptyString)) x) eqn:E;
          [|reflexivity].
        apply contains_spec in E as (pre & post & E).
        assert (Hin : all_chars not_tab (String a (String b EmptyString))).
        { rewrite E in Ht. apply all_chars_app in Ht as [_ Ht].
          change (String a (String b EmptyString) +:+ post)
            with (String a (String b post)) in Ht.
          simpl. simpl in Ht. tauto. }
        destruct Hin as (Hta & Htb & _).
        rewrite (is_blank_cases a Ha Hta), (is_blank_cases b Hb Htb) in E.
        assert (contains "  " x = true) by (apply contains_spec; eauto).
        congruence.
      - destruct x; [exact I | reflexivity]. }
    assert (Hd : pairs_ok dot_upper newline x).
    { apply contains_pairs_ok.
      - intros a b Hab. unfold dot_upper in Hab.
        apply andb_true_iff in Hab as [Ha Hb].
        apply Ascii.eqb_eq in Ha. subst a. apply Hdot, Hb.
      - destruct x; [exact I | reflexivity]. }
    apply clean_fixed; assumption.
Qed.

(** A result with bold markers is returned as it is; a text with a tab is
    not. *)
Lemma clean_response_text_fixed_point_witness :
  clean_response_text ("**Om.** Shanti *om*" +:+ String newline "- peace.")
  = "**Om.** Shanti *om*" +:+ String newline "- peace.".
Proof.
  apply (clean_response_text_fixed_point
           ("**Om.** Shanti *om*" +:+ String newline "- peace.") eq_refl).
  split_all; try reflexivity.
  - intros c Hc.
    destruct c as [[] [] [] [] [] [] [] []]; try discriminate Hc;
      reflexivity.
  - intros c Hc.
    destruct c as [[] [] [] [] [] [] [] []]; try discriminate Hc;
      reflexivity.
Defined.

(** * The probes and what they ignore *)

(** ** What the cleaned query forgets *)


















